(** * meeting-generator: the booking core of [server.js]

    A shallow embedding of the slot validator ([toMinutes],
    [parseAndValidateSlot]), of the overlap test ([hasOverlap]), of the
    persistence helpers ([ensureDataFile], [readBookings], [writeBookings]),
    of the three API branches of [handleApi], of [parseRequestBody] and of
    the routing of [handleApi] from the method and the URL, followed by the
    properties of the booking store that the specification states and by
    further ones read off the code.  [serveStatic] is left out: it is made
    of [path.normalize], [path.resolve], [path.extname] and [fs.readFile].

    Conventions.
    - A JavaScript number is a [number]: an integral double is [Int z], the
      other finite doubles are [Frac q], and the two infinities and NaN are
      constructors of their own.  Arithmetic on [Int] is exact; every sum and
      product the program forms on an accepted request stays far below 2^53,
      where doubles are exact too.
    - The runtime's reading of a string as a number ([Number] applied to a
      string) and [String.prototype.localeCompare] are not code of this
      program: the sections below take them as variables and assume about
      them only what ECMA-262 and the collation of digits guarantee.
    - The data file is modelled by what [JSON.parse] makes of its text.
    - A [string] holds a text as UTF-8, one [ascii] for each byte, so the
      length JavaScript gives a text, in UTF-16 code units, is [length16]
      and not the number of bytes.
    - [JSON.parse] of a request body, the conversion of an array or object
      to a primitive and [decodeURIComponent] are variables too; the
      modules [Json], [Primitive] and [Uri] give executable ones. *)

From Stdlib Require Import ZArith QArith Bool List Ascii String Lia.
From Stdlib Require Import Sorted Permutation DecimalString.
Import ListNotations.

Local Open Scope string_scope.
Local Open Scope list_scope.
Local Open Scope Z_scope.

(* ------------------------------------------------------------------ *)
(** ** JavaScript values the program handles *)

Module JS.

(** Exceptions: only the message is ever read ([error.message]). *)
Record Error : Type := mkError { name : string; message : string }.

Inductive Exc (A : Type) : Type :=
| Ok (a : A)
| Throw (e : Error).
Arguments Ok {A} a.
Arguments Throw {A} e.

Inductive number : Type :=
| NaN
| Infinity (negative : bool)
| Int (z : Z)     (* a finite number without fractional part *)
| Frac (q : Q).   (* a finite number with one, in lowest terms *)

(** The finite number with value [q], in lowest terms. *)
Definition of_Q (q : Q) : number :=
  let r := Qred q in
  if Pos.eqb (Qden r) 1 then Int (Qnum r) else Frac r.

Definition sgn (n : number) : comparison :=
  match n with
  | NaN => Eq
  | Infinity negative => if negative then Lt else Gt
  | Int z => z ?= 0
  | Frac q => Qnum q ?= 0
  end.

Definition to_Q (n : number) : Q :=
  match n with
  | Int z => inject_Z z
  | Frac q => q
  | _ => 0%Q
  end.

(** [a * b] *)
Definition mul (a b : number) : number :=
  match a, b with
  | NaN, _ | _, NaN => NaN
  | Int x, Int y => Int (x * y)
  | Infinity s, Infinity t => Infinity (xorb s t)
  | Infinity s, x | x, Infinity s =>
      match sgn x with
      | Eq => NaN
      | Lt => Infinity (negb s)
      | Gt => Infinity s
      end
  | x, y => of_Q (to_Q x * to_Q y)
  end.

(** [a + b] *)
Definition add (a b : number) : number :=
  match a, b with
  | NaN, _ | _, NaN => NaN
  | Int x, Int y => Int (x + y)
  | Infinity s, Infinity t => if Bool.eqb s t then Infinity s else NaN
  | Infinity s, _ | _, Infinity s => Infinity s
  | x, y => of_Q (to_Q x + to_Q y)
  end.

(** [a - b] *)
Definition sub (a b : number) : number :=
  match a, b with
  | NaN, _ | _, NaN => NaN
  | Int x, Int y => Int (x - y)
  | Infinity s, Infinity t => if Bool.eqb s t then NaN else Infinity s
  | Infinity s, _ => Infinity s
  | _, Infinity s => Infinity (negb s)
  | x, y => of_Q (to_Q x - to_Q y)
  end.

(** [a < b]: false as soon as one side is NaN. *)
Definition lt (a b : number) : bool :=
  match a, b with
  | NaN, _ | _, NaN => false
  | Int x, Int y => x <? y
  | Infinity s, Infinity t => s && negb t
  | Infinity s, _ => s
  | _, Infinity t => negb t
  | x, y => match (to_Q x ?= to_Q y)%Q with Lt => true | _ => false end
  end.

(** [a > b] *)
Definition gt (a b : number) : bool := lt b a.

(** [Number.isInteger] *)
Definition isInteger (n : number) : bool :=
  match n with
  | Int _ => true
  | _ => false
  end.

(** A request field as [JSON.parse] hands it over.  [Undefined] is a missing
    property.  An array or an object is seen through the two things the
    validator does with it: [typeof] (never ['string']) and the conversion to
    a primitive that [Number] starts with, which gives a string (the joined
    elements of an array, ["[object Object]"]) or throws a TypeError when an
    own [toString] property hides the inherited method. *)
Inductive value : Type :=
| Undefined
| Null
| Bool (b : bool)
| Num (n : number)
| Str (s : string)
| Object (toPrimitive : Exc string).

End JS.
Import JS.

(* ------------------------------------------------------------------ *)
(** ** Strings: the two patterns and [split] *)

Definition is_digit (c : ascii) : bool :=
  let n := N_of_ascii c in (48 <=? n)%N && (n <=? 57)%N.

Definition digit_val (c : ascii) : Z := Z.of_N (N_of_ascii c) - 48.

(** The patterns of the program are sequences of single-character atoms,
    anchored at both ends ([$] without the [m] flag is the end of input). *)
Inductive atom : Type :=
| Digit                (* \d : 0-9 only, the pattern has no u/v flag *)
| Lit (c : ascii).

Definition atom_test (a : atom) (c : ascii) : bool :=
  match a with
  | Digit => is_digit c
  | Lit l => Ascii.eqb c l
  end.

Fixpoint regex_test (p : list atom) (s : string) : bool :=
  match p, s with
  | [], EmptyString => true
  | a :: p', String c s' => atom_test a c && regex_test p' s'
  | _, _ => false
  end.

(** [/^\d{4}-\d{2}-\d{2}$/] *)
Definition date_pattern : list atom :=
  [Digit; Digit; Digit; Digit; Lit "-"; Digit; Digit; Lit "-"; Digit; Digit].

(** [/^\d{2}:\d{2}$/] *)
Definition time_pattern : list atom :=
  [Digit; Digit; Lit ":"; Digit; Digit].

(** [s.split(sep)] for a one-character separator: never empty. *)
Fixpoint split (sep : ascii) (s : string) : list string :=
  match s with
  | EmptyString => [EmptyString]
  | String c s' =>
      if Ascii.eqb c sep then EmptyString :: split sep s'
      else match split sep s' with
           | [] => [String c EmptyString]
           | h :: t => String c h :: t
           end
  end.

(* ------------------------------------------------------------------ *)
(** ** The records of the data model *)

(** The request body of [POST /api/bookings], by the three properties the
    validator reads. *)
Module Body.
Record t : Type := mk { date : value; time : value; duration : value }.
End Body.

(** What [parseAndValidateSlot] returns for an accepted request. *)
Module Slot.
Record t : Type := mk {
  date : string;
  time : string;
  duration : number;
  startMinutes : number;
  endMinutes : number
}.
End Slot.

(** An element of the persisted array. *)
Module Booking.
Record t : Type := mk {
  id : string;
  date : string;
  time : string;
  duration : number;
  startMinutes : number;
  endMinutes : number;
  createdAt : string
}.
End Booking.

(* ------------------------------------------------------------------ *)
(** ** Slot validator: [toMinutes] and [parseAndValidateSlot] *)

(** The object [parseAndValidateSlot] returns: [{ error }] or the slot. *)
Inductive validation : Type :=
| Rejected (error : string)
| Accepted (slot : Slot.t).

Definition INVALID : string := "Invalid date, time, or duration.".
Definition MIDNIGHT : string := "Meeting cannot cross midnight.".

(** [typeof v === 'string' ? v : ''] *)
Definition string_or_empty (v : value) : string :=
  match v with
  | Str s => s
  | _ => ""
  end.

Section Validator.

(** [Number] applied to a string (ECMA-262, StringToNumber). *)
Variable StringToNumber : string -> number.

(** [Number(v)] *)
Definition Number (v : value) : Exc number :=
  match v with
  | Undefined => Ok NaN
  | Null => Ok (Int 0)
  | Bool b => Ok (Int (if b then 1 else 0))
  | Num n => Ok n
  | Str s => Ok (StringToNumber s)
  | Object (Ok s) => Ok (StringToNumber s)
  | Object (Throw e) => Throw e
  end.

(** [function toMinutes(time)]: [String(time)] is [time] on a string; a
    part that [split] did not produce is [undefined], which [*] and [+]
    read as NaN. *)
Definition toMinutes (time : string) : number :=
  let parts := map StringToNumber (split ":" time) in
  let hours := nth 0 parts NaN in
  let minutes := nth 1 parts NaN in
  add (mul hours (Int 60)) minutes.

(** [function parseAndValidateSlot(body)] *)
Definition parseAndValidateSlot (body : Body.t) : Exc validation :=
  let date := string_or_empty (Body.date body) in
  let time := string_or_empty (Body.time body) in
  match Number (Body.duration body) with
  | Throw e => Throw e
  | Ok duration =>
      let isValidDate := regex_test date_pattern date in
      let isValidTime := regex_test time_pattern time in
      let isValidDuration := isInteger duration && gt duration (Int 0) in
      if negb isValidDate || negb isValidTime || negb isValidDuration
      then Ok (Rejected INVALID)
      else
        let startMinutes := toMinutes time in
        let endMinutes := add startMinutes duration in
        if gt endMinutes (Int (24 * 60))
        then Ok (Rejected MIDNIGHT)
        else Ok (Accepted (Slot.mk date time duration startMinutes endMinutes))
  end.

End Validator.

(* ------------------------------------------------------------------ *)
(** ** Overlap test *)

(** [function hasOverlap(aStart, aEnd, bStart, bEnd)] *)
Definition hasOverlap (aStart aEnd bStart bEnd : number) : bool :=
  lt aStart bEnd && gt aEnd bStart.

(* ------------------------------------------------------------------ *)
(** ** The data file and the handlers' effects *)

(** The text of [data/bookings.json], by what [JSON.parse] makes of it.
    [JSON.stringify] followed by [JSON.parse] gives an array of objects
    with string and integral number properties back as it was, which is
    what [writeBookings] is handed. *)
Inductive content : Type :=
| Unparsable (e : Error)                   (* [JSON.parse(raw)] throws [e] *)
| NotArray                                 (* it returns a non-array *)
| Collection (bookings : list Booking.t).  (* it returns this array *)

(** The disk: the data file if it exists, and the arrays handed to
    [writeBookings] so far, oldest first. *)
Record Disk : Type := mkDisk {
  file : option content;
  written : list (list Booking.t)
}.

(** A computation that reads and writes the disk and may throw. *)
Definition M (A : Type) : Type := Disk -> Exc A * Disk.

Definition ret {A : Type} (a : A) : M A := fun d => (Ok a, d).

Definition bind {A B : Type} (m : M A) (k : A -> M B) : M B :=
  fun d =>
    match m d with
    | (Ok a, d') => k a d'
    | (Throw e, d') => (Throw e, d')
    end.

Definition lift {A : Type} (x : Exc A) : M A := fun d => (x, d).

Notation "x <- m ;; k" := (bind m (fun x => k))
  (at level 61, m at next level, right associativity).
Notation "m ;;; k" := (bind m (fun _ => k))
  (at level 61, right associativity).

Definition ENOENT : Error :=
  mkError "Error" "ENOENT: no such file or directory".

(** [function ensureDataFile()]: writes ['[]\n'] when the file is missing. *)
Definition ensureDataFile : M unit :=
  fun d =>
    match file d with
    | None => (Ok tt, mkDisk (Some (Collection [])) (written d))
    | Some _ => (Ok tt, d)
    end.

(** [function readBookings()]: no [try] around [JSON.parse]. *)
Definition readBookings : M (list Booking.t) :=
  ensureDataFile ;;;
  fun d =>
    match file d with
    | None => (Throw ENOENT, d)
    | Some (Unparsable e) => (Throw e, d)
    | Some NotArray => (Ok [], d)
    | Some (Collection parsed) => (Ok parsed, d)
    end.

(** [function writeBookings(bookings)] *)
Definition writeBookings (bookings : list Booking.t) : M unit :=
  fun d => (Ok tt, mkDisk (Some (Collection bookings)) (written d ++ [bookings])).

(** The array the file stands for: none and [[]] are the same collection. *)
Definition collection (d : Disk) : list Booking.t :=
  match file d with
  | Some (Collection bookings) => bookings
  | _ => []
  end.

(* ------------------------------------------------------------------ *)
(** ** Responses *)

Inductive payload : Type :=
| BookingsBody (bookings : list Booking.t)               (* [{ bookings }] *)
| BookingBody (booking : Booking.t)                      (* [{ booking }] *)
| ErrorBody (error : string)                             (* [{ error }] *)
| ConflictBody (error : string) (conflict : Booking.t)   (* [{ error, conflict }] *)
| OkBody.                                                (* [{ ok: true }] *)

(** What [sendJson(res, statusCode, body)] sends. *)
Record response : Type := sendJson { statusCode : Z; body : payload }.

(* ------------------------------------------------------------------ *)
(** ** [Array.prototype.sort] with a comparator *)

Section Sort.

Context {A : Type}.
Variable comparefn : A -> A -> number.

(** [x] goes before the first element it does not compare greater than. *)
Fixpoint insert (x : A) (l : list A) : list A :=
  match l with
  | [] => [x]
  | y :: l' => if gt (comparefn x y) (Int 0) then y :: insert x l' else x :: l
  end.

(** The stable sort: the one order ECMA-262 allows for a consistent
    comparator. *)
Fixpoint sort (l : list A) : list A :=
  match l with
  | [] => []
  | x :: l' => insert x (sort l')
  end.

End Sort.

(* ------------------------------------------------------------------ *)
(** ** The three API branches of [handleApi] *)

Inductive route : Type :=
| GetBookings                        (* GET /api/bookings *)
| PostBookings (body : Body.t)       (* POST /api/bookings, body parsed *)
| DeleteBooking (bookingId : string) (* DELETE /api/bookings/<id>, id decoded *)
| NoRoute.

Section Handlers.

Variable StringToNumber : string -> number.

(** [a.localeCompare(b)] *)
Variable localeCompare : string -> string -> Z.

(** The comparator of the GET branch. *)
Definition compareBookings (a b : Booking.t) : number :=
  if String.eqb (Booking.date a) (Booking.date b)
  then sub (Booking.startMinutes a) (Booking.startMinutes b)
  else Int (localeCompare (Booking.date a) (Booking.date b)).

(** GET: sorts the array it has just read; nothing is written. *)
Definition listBookings : M response :=
  bookings <- readBookings ;;
  ret (sendJson 200 (BookingsBody (sort compareBookings bookings))).

(** The predicate of [bookings.find] in the POST branch. *)
Definition conflicts (slot : Slot.t) (existing : Booking.t) : bool :=
  String.eqb (Booking.date existing) (Slot.date slot)
  && hasOverlap (Slot.startMinutes slot) (Slot.endMinutes slot)
                (Booking.startMinutes existing) (Booking.endMinutes existing).

Definition OVERLAPS : string :=
  "Requested slot overlaps with an existing booking.".

(** The body of [.then((body) => ...)].  [uuid] is what [randomUUID()]
    returns and [now] what [new Date().toISOString()] returns.  Both error
    messages are non-empty, so [if (slot.error)] is the [Rejected] case. *)
Definition createBooking_then (uuid now : string) (body : Body.t) : M response :=
  slot <- lift (parseAndValidateSlot StringToNumber body) ;;
  match slot with
  | Rejected error => ret (sendJson 400 (ErrorBody error))
  | Accepted slot =>
      bookings <- readBookings ;;
      match find (conflicts slot) bookings with
      | Some conflict => ret (sendJson 409 (ConflictBody OVERLAPS conflict))
      | None =>
          let booking :=
            Booking.mk uuid (Slot.date slot) (Slot.time slot)
              (Slot.duration slot) (Slot.startMinutes slot)
              (Slot.endMinutes slot) now in
          writeBookings (bookings ++ [booking]) ;;;
          ret (sendJson 201 (BookingBody booking))
      end
  end.

(** POST: [.then(...)] followed by [.catch(...)], which answers 400 (413 for
    an oversized payload) with the message of whatever was thrown. *)
Definition createBooking (uuid now : string) (body : Body.t)
  : Disk -> response * Disk :=
  fun d =>
    match createBooking_then uuid now body d with
    | (Ok r, d') => (r, d')
    | (Throw error, d') =>
        let status :=
          if String.eqb (message error) "Payload too large" then 413 else 400 in
        (sendJson status (ErrorBody (message error)), d')
    end.

(** DELETE *)
Definition deleteBooking (bookingId : string) : M response :=
  bookings <- readBookings ;;
  let next :=
    filter (fun item => negb (String.eqb (Booking.id item) bookingId)) bookings in
  if Nat.eqb (List.length next) (List.length bookings)
  then ret (sendJson 404 (ErrorBody "Booking not found."))
  else writeBookings next ;;; ret (sendJson 200 OkBody).

(** [function handleApi(req, res)], by route.  A [Throw] is an exception
    that leaves [handleApi]: no response is sent. *)
Definition handleApi (uuid now : string) (r : route) : M response :=
  match r with
  | GetBookings => listBookings
  | PostBookings body =>
      fun d => let (res, d') := createBooking uuid now body d in (Ok res, d')
  | DeleteBooking bookingId => deleteBooking bookingId
  | NoRoute => ret (sendJson 404 (ErrorBody "Not found."))
  end.

End Handlers.

(* ------------------------------------------------------------------ *)
(** ** Request bodies: [parseRequestBody] *)

(** What [JSON.parse] returns.  The members of an object are in the order
    of the text; a name that comes twice keeps its last value. *)
#[warnings="-register-all"]
Inductive json : Type :=
| JNull
| JBool (b : bool)
| JNumber (n : number)
| JString (s : string)
| JArray (items : list json)
| JObject (members : list (string * json)).

(** The events of the request stream that [parseRequestBody] listens to. *)
Inductive event : Type :=
| Data (chunk : string)   (* ['data'], the chunk as the text [+=] makes of it *)
| End                     (* ['end'] *)
| Failed (error : Error). (* ['error'] *)

(** [1_000_000] *)
Definition PAYLOAD_LIMIT : Z := 1000000.

(** The UTF-16 code units that start at a byte of UTF-8: none at a byte
    that continues a character ([0x80] to [0xBF]), two at the first byte of
    a character of four bytes ([0xF0] and above: a surrogate pair), one at
    any other byte. *)
Definition code_units (c : ascii) : Z :=
  let b := Z.of_N (N_of_ascii c) in
  if (128 <=? b) && (b <=? 191) then 0
  else if 240 <=? b then 2
  else 1.

(** [s.length] *)
Fixpoint length16 (s : string) : Z :=
  match s with
  | EmptyString => 0
  | String c s' => code_units c + length16 s'
  end.

Definition TOO_LARGE : Error := mkError "Error" "Payload too large".
Definition INVALID_JSON : Error := mkError "Error" "Invalid JSON".

(** The closure of [parseRequestBody]: the text gathered so far and the
    promise, pending ([None]), resolved ([Ok]) or rejected ([Throw]). *)
Record gathering : Type := mkGathering {
  data : string;
  promise : option (Exc json)
}.

(** [resolve(v)] and [reject(e)]: a settled promise stays as it is. *)
Definition settle (o : Exc json) (g : gathering) : gathering :=
  match promise g with
  | Some _ => g
  | None => mkGathering (data g) (Some o)
  end.

Section RequestBody.

Variable JSON_parse : string -> Exc json.

(** [req.on('data', (chunk) => ...)] *)
Definition on_data (chunk : string) (g : gathering) : gathering :=
  let g' := mkGathering (data g ++ chunk) (promise g) in
  if PAYLOAD_LIMIT <? length16 (data g')
  then settle (Throw TOO_LARGE) g'
  else g'.

(** [req.on('end', () => ...)] *)
Definition on_end (g : gathering) : gathering :=
  if String.eqb (data g) ""
  then settle (Ok (JObject [])) g
  else match JSON_parse (data g) with
       | Ok parsed => settle (Ok parsed) g
       | Throw _ => settle (Throw INVALID_JSON) g
       end.

Definition on_event (g : gathering) (ev : event) : gathering :=
  match ev with
  | Data chunk => on_data chunk g
  | End => on_end g
  | Failed error => settle (Throw error) g
  end.

(** [function parseRequestBody(req)]: the promise once the stream has
    emitted [events]. *)
Definition parseRequestBody (events : list event) : option (Exc json) :=
  promise (fold_left on_event events (mkGathering "" None)).

End RequestBody.

(* ------------------------------------------------------------------ *)
(** ** The request body as the validator reads it *)

(** [body.date] on [null] (V8's wording). *)
Definition NULL_BODY : Error :=
  mkError "TypeError" "Cannot read properties of null (reading 'date')".

(** The last member called [key], if any. *)
Fixpoint member (key : string) (members : list (string * json)) : option json :=
  match members with
  | [] => None
  | (k, v) :: rest =>
      match member key rest with
      | Some later => Some later
      | None => if String.eqb k key then Some v else None
      end
  end.

Section BodyFields.

(** The conversion of an array or an object to a primitive, with hint
    number, that [Number] starts with. *)
Variable ToPrimitive : json -> Exc string.

Definition to_value (j : json) : value :=
  match j with
  | JNull => Null
  | JBool b => Bool b
  | JNumber n => Num n
  | JString s => Str s
  | JArray _ | JObject _ => Object (ToPrimitive j)
  end.

(** [body.key] for [key] one of date, time and duration, which no
    prototype defines: the own member of an object, [undefined] on anything
    else that is not [null]. *)
Definition property (body : json) (key : string) : value :=
  match body with
  | JObject members =>
      match member key members with
      | Some v => to_value v
      | None => Undefined
      end
  | _ => Undefined
  end.

(** The three reads of [parseAndValidateSlot(body)]; the first one throws on
    [null]. *)
Definition body_of (body : json) : Exc Body.t :=
  match body with
  | JNull => Throw NULL_BODY
  | _ => Ok (Body.mk (property body "date") (property body "time")
               (property body "duration"))
  end.

End BodyFields.

(* ------------------------------------------------------------------ *)
(** ** [handleApi] from the request *)

Record Request : Type := mkRequest {
  method : string;
  url : string;
  events : list event
}.

(** [s.startsWith(prefix)] *)
Fixpoint startsWith (s prefix : string) : bool :=
  match prefix, s with
  | EmptyString, _ => true
  | String p prefix', String c s' => Ascii.eqb c p && startsWith s' prefix'
  | String _ _, EmptyString => false
  end.

(** What is left of [s] after [prefix], when [s] starts with it. *)
Fixpoint drop (prefix s : string) : string :=
  match prefix, s with
  | String _ prefix', String _ s' => drop prefix' s'
  | _, _ => s
  end.

(** [s.replace(pattern, '')]: the first occurrence of [pattern] is cut
    out. *)
Fixpoint remove_first (pattern s : string) : string :=
  if startsWith s pattern then drop pattern s
  else match s with
       | EmptyString => EmptyString
       | String c s' => String c (remove_first pattern s')
       end.

Section Requests.

Variable StringToNumber : string -> number.
Variable localeCompare : string -> string -> Z.
Variable JSON_parse : string -> Exc json.
Variable ToPrimitive : json -> Exc string.

(** [decodeURIComponent], which throws a URIError on a malformed escape. *)
Variable decodeURIComponent : string -> Exc string.

(** The POST branch from the stream: [parseRequestBody(req).then(...)
    .catch(...)].  Nothing is sent while the promise is pending. *)
Definition postBookings (uuid now : string) (events : list event)
  : Disk -> option response * Disk :=
  fun d =>
    let caught (error : Error) (d' : Disk) :=
      let status :=
        if String.eqb (message error) "Payload too large" then 413 else 400 in
      (Some (sendJson status (ErrorBody (message error))), d') in
    match parseRequestBody JSON_parse events with
    | None => (None, d)
    | Some (Throw error) => caught error d
    | Some (Ok body) =>
        match (fields <- lift (body_of ToPrimitive body) ;;
               createBooking_then StringToNumber uuid now fields) d with
        | (Ok r, d') => (Some r, d')
        | (Throw error, d') => caught error d'
        end
    end.

(** [function handleApi(req, res)].  A [Throw] is an exception that leaves
    it; [None] is no response yet. *)
Definition handleApi_request (uuid now : string) (req : Request)
  : M (option response) :=
  let pathname := hd "" (split "?" (url req)) in
  if String.eqb (method req) "GET" && String.eqb pathname "/api/bookings"
  then r <- listBookings localeCompare ;; ret (Some r)
  else if String.eqb (method req) "POST" && String.eqb pathname "/api/bookings"
  then fun d =>
         let (r, d') := postBookings uuid now (events req) d in (Ok r, d')
  else if String.eqb (method req) "DELETE"
          && startsWith pathname "/api/bookings/"
  then bookingId <-
         lift (decodeURIComponent (remove_first "/api/bookings/" pathname)) ;;
       r <- deleteBooking bookingId ;; ret (Some r)
  else ret (Some (sendJson 404 (ErrorBody "Not found."))).

End Requests.

(* ------------------------------------------------------------------ *)
(** ** A runtime to evaluate the model with

    [readNumber] reads a string the way StringToNumber does (white space
    trimmed, the empty string 0, signed decimal literals with fraction and
    exponent, [Infinity], and the 0x, 0o and 0b integers), with the value
    taken exactly instead of rounded to a double.  [codeUnitCompare] orders
    strings by code unit, which is how every collation orders two strings of
    digits and hyphens of the same shape. *)

Module Runtime.

Definition is_space (c : ascii) : bool :=
  match N_of_ascii c with
  | 9%N | 10%N | 11%N | 12%N | 13%N | 32%N => true
  | _ => false
  end.

Fixpoint trim_start (l : list ascii) : list ascii :=
  match l with
  | c :: l' => if is_space c then trim_start l' else l
  | [] => []
  end.

Definition trim (l : list ascii) : list ascii :=
  rev (trim_start (rev (trim_start l))).

(** Value of [c] as a digit in base [radix], if it is one. *)
Definition digit_in (radix : Z) (c : ascii) : option Z :=
  let n := Z.of_N (N_of_ascii c) in
  let v :=
    if (48 <=? n) && (n <=? 57) then n - 48
    else if (97 <=? n) && (n <=? 102) then n - 87
    else if (65 <=? n) && (n <=? 70) then n - 55
    else radix in
  if v <? radix then Some v else None.

(** The longest prefix of digits: its digits, most significant first, and
    what follows it. *)
Fixpoint span_digits (radix : Z) (l : list ascii) : list Z * list ascii :=
  match l with
  | c :: l' =>
      match digit_in radix c with
      | Some v => let (ds, rest) := span_digits radix l' in (v :: ds, rest)
      | None => ([], l)
      end
  | [] => ([], [])
  end.

Definition positional (radix : Z) (ds : list Z) : Z :=
  fold_left (fun acc v => radix * acc + v) ds 0.

(** [ExponentPart], or nothing, up to the end of the string. *)
Definition exponent (l : list ascii) : option Z :=
  match l with
  | [] => Some 0
  | c :: l' =>
      if Ascii.eqb c "e" || Ascii.eqb c "E" then
        let '(negative, l'') :=
          match l' with
          | s :: r => if Ascii.eqb s "-" then (true, r)
                      else if Ascii.eqb s "+" then (false, r)
                      else (false, l')
          | [] => (false, l')
          end in
        match span_digits 10 l'' with
        | ((_ :: _) as ds, []) =>
            Some (if negative then - positional 10 ds else positional 10 ds)
        | _ => None
        end
      else None
  end.

(** [m * 10^e] *)
Definition scale (m e : Z) : number :=
  if 0 <=? e then Int (m * 10 ^ e)
  else of_Q (Qmake m (Z.to_pos (10 ^ (- e)))).

(** [StrUnsignedDecimalLiteral] *)
Definition unsigned_decimal (l : list ascii) : number :=
  if String.eqb (string_of_list_ascii l) "Infinity" then Infinity false
  else
    let (ip, r1) := span_digits 10 l in
    let (fp, r2) :=
      match r1 with
      | c :: r => if Ascii.eqb c "." then span_digits 10 r else ([], r1)
      | [] => ([], r1)
      end in
    match ip ++ fp, exponent r2 with
    | _ :: _, Some e => scale (positional 10 (ip ++ fp)) (e - Z.of_nat (List.length fp))
    | _, _ => NaN
    end.

Definition negate (n : number) : number :=
  match n with
  | NaN => NaN
  | Infinity s => Infinity (negb s)
  | Int z => Int (- z)
  | Frac q => Frac (- q)
  end.

(** [NonDecimalIntegerLiteral] after its two-character prefix. *)
Definition radix_literal (radix : Z) (l : list ascii) : number :=
  match span_digits radix l with
  | ((_ :: _) as ds, []) => Int (positional radix ds)
  | _ => NaN
  end.

Definition readNumber (s : string) : number :=
  match trim (list_ascii_of_string s) with
  | [] => Int 0
  | (c :: l') as l =>
      if Ascii.eqb c "-" then negate (unsigned_decimal l')
      else if Ascii.eqb c "+" then unsigned_decimal l'
      else
        match l' with
        | p :: l'' =>
            if Ascii.eqb c "0" && (Ascii.eqb p "x" || Ascii.eqb p "X")
            then radix_literal 16 l''
            else if Ascii.eqb c "0" && (Ascii.eqb p "o" || Ascii.eqb p "O")
            then radix_literal 8 l''
            else if Ascii.eqb c "0" && (Ascii.eqb p "b" || Ascii.eqb p "B")
            then radix_literal 2 l''
            else unsigned_decimal l
        | [] => unsigned_decimal l
        end
  end.

Definition codeUnitCompare (a b : string) : Z :=
  match String.compare a b with
  | Lt => -1
  | Eq => 0
  | Gt => 1
  end.

End Runtime.

(* ------------------------------------------------------------------ *)
(** ** More of the runtime: [decodeURIComponent], [JSON.parse] and the
    conversion of arrays and objects to primitives

    Strings hold text as UTF-8 here: the octets of a decoded escape
    sequence, or of a [\u] escape, stand for the character they encode.
    Numbers are read and printed exactly, as in [Runtime.readNumber]. *)

Module Uri.

Definition URI_MALFORMED : Error := mkError "URIError" "URI malformed".

Inductive token : Type :=
| Plain (c : ascii)
| Escape (octet : Z)   (* [%XX] *)
| Broken.              (* [%] without two hexadecimal digits after it *)

Fixpoint tokens (l : list ascii) : list token :=
  match l with
  | [] => []
  | c :: rest =>
      if Ascii.eqb c "%" then
        match rest with
        | h :: lo :: rest' =>
            match Runtime.digit_in 16 h, Runtime.digit_in 16 lo with
            | Some a, Some b => Escape (16 * a + b) :: tokens rest'
            | _, _ => [Broken]
            end
        | _ => [Broken]
        end
      else Plain c :: tokens rest
  end.

(** An escaped octet between [lo] and [hi]. *)
Definition trail (lo hi : Z) (t : token) : option ascii :=
  match t with
  | Escape b =>
      if (lo <=? b) && (b <=? hi) then Some (ascii_of_N (Z.to_N b)) else None
  | _ => None
  end.

(** The decoded text: escapes of ASCII characters, and escape sequences
    that are well-formed UTF-8 (no overlong form, no surrogate, nothing
    above U+10FFFF). *)
Fixpoint decoded (ts : list token) : option (list ascii) :=
  match ts with
  | [] => Some []
  | Plain c :: rest => option_map (cons c) (decoded rest)
  | Broken :: _ => None
  | Escape b :: rest =>
      let lead := ascii_of_N (Z.to_N b) in
      if b <? 128 then option_map (cons lead) (decoded rest)
      else if (194 <=? b) && (b <=? 223) then
        match rest with
        | t1 :: rest1 =>
            match trail 128 191 t1, decoded rest1 with
            | Some c1, Some more => Some (lead :: c1 :: more)
            | _, _ => None
            end
        | _ => None
        end
      else if (224 <=? b) && (b <=? 239) then
        match rest with
        | t1 :: t2 :: rest2 =>
            match trail (if b =? 224 then 160 else 128)
                        (if b =? 237 then 159 else 191) t1,
                  trail 128 191 t2, decoded rest2 with
            | Some c1, Some c2, Some more => Some (lead :: c1 :: c2 :: more)
            | _, _, _ => None
            end
        | _ => None
        end
      else if (240 <=? b) && (b <=? 244) then
        match rest with
        | t1 :: t2 :: t3 :: rest3 =>
            match trail (if b =? 240 then 144 else 128)
                        (if b =? 244 then 143 else 191) t1,
                  trail 128 191 t2, trail 128 191 t3, decoded rest3 with
            | Some c1, Some c2, Some c3, Some more =>
                Some (lead :: c1 :: c2 :: c3 :: more)
            | _, _, _, _ => None
            end
        | _ => None
        end
      else None
  end.

Definition decodeURIComponent (s : string) : Exc string :=
  match decoded (tokens (list_ascii_of_string s)) with
  | Some l => Ok (string_of_list_ascii l)
  | None => Throw URI_MALFORMED
  end.

End Uri.

Module Json.

Definition SYNTAX_ERROR : Error :=
  mkError "SyntaxError" "Unexpected token in JSON".

Definition is_ws (c : ascii) : bool :=
  match N_of_ascii c with
  | 9%N | 10%N | 13%N | 32%N => true
  | _ => false
  end.

Fixpoint skip_ws (l : list ascii) : list ascii :=
  match l with
  | c :: l' => if is_ws c then skip_ws l' else l
  | [] => []
  end.

(** A character of a string: a byte of the text or a [\uXXXX] escape. *)
Inductive unit16 : Type :=
| Raw (c : ascii)
| Escaped (u : Z).

Definition hex4 (a b c d : ascii) : option Z :=
  match Runtime.digit_in 16 a, Runtime.digit_in 16 b,
        Runtime.digit_in 16 c, Runtime.digit_in 16 d with
  | Some w, Some x, Some y, Some z => Some (((w * 16 + x) * 16 + y) * 16 + z)
  | _, _, _, _ => None
  end.

(** The characters up to the closing quote, and what follows it. *)
Fixpoint string_body (l : list ascii) : option (list unit16 * list ascii) :=
  match l with
  | [] => None
  | c :: rest =>
      if Ascii.eqb c "034" then Some ([], rest)
      else if Ascii.eqb c "092" then
        match rest with
        | e :: rest' =>
            let simple (x : ascii) :=
              match string_body rest' with
              | Some (us, r) => Some (Raw x :: us, r)
              | None => None
              end in
            if Ascii.eqb e "034" then simple "034"%char
            else if Ascii.eqb e "092" then simple "092"%char
            else if Ascii.eqb e "/" then simple "/"%char
            else if Ascii.eqb e "b" then simple "008"%char
            else if Ascii.eqb e "f" then simple "012"%char
            else if Ascii.eqb e "n" then simple "010"%char
            else if Ascii.eqb e "r" then simple "013"%char
            else if Ascii.eqb e "t" then simple "009"%char
            else if Ascii.eqb e "u" then
              match rest' with
              | h1 :: h2 :: h3 :: h4 :: rest'' =>
                  match hex4 h1 h2 h3 h4, string_body rest'' with
                  | Some u, Some (us, r) => Some (Escaped u :: us, r)
                  | _, _ => None
                  end
              | _ => None
              end
            else None
        | [] => None
        end
      else if (N_of_ascii c <? 32)%N then None
      else
        match string_body rest with
        | Some (us, r) => Some (Raw c :: us, r)
        | None => None
        end
  end.

Definition byte (z : Z) : ascii := ascii_of_N (Z.to_N z).

(** UTF-8 of a code point. *)
Definition utf8 (p : Z) : list ascii :=
  if p <? 128 then [byte p]
  else if p <? 2048 then [byte (192 + p / 64); byte (128 + p mod 64)]
  else if p <? 65536 then
    [byte (224 + p / 4096); byte (128 + (p / 64) mod 64); byte (128 + p mod 64)]
  else
    [byte (240 + p / 262144); byte (128 + (p / 4096) mod 64);
     byte (128 + (p / 64) mod 64); byte (128 + p mod 64)].

(** The text of a string: a high surrogate followed by a low one is one
    character. *)
Fixpoint text (us : list unit16) : list ascii :=
  match us with
  | [] => []
  | Raw c :: rest => c :: text rest
  | Escaped hi :: rest =>
      match rest with
      | Escaped lo :: rest' =>
          if (55296 <=? hi) && (hi <=? 56319) && (56320 <=? lo) && (lo <=? 57343)
          then utf8 (65536 + (hi - 55296) * 1024 + (lo - 56320)) ++ text rest'
          else utf8 hi ++ text rest
      | _ => utf8 hi ++ text rest
      end
  end.

(** A JSON number at the head of [l], and what follows it. *)
Definition number_token (l : list ascii) : option (number * list ascii) :=
  let (negative, l1) :=
    match l with
    | c :: r => if Ascii.eqb c "-" then (true, r) else (false, l)
    | [] => (false, l)
    end in
  let (ip, r1) := Runtime.span_digits 10 l1 in
  let well_formed_int :=
    match ip with
    | [] => false
    | [_] => true
    | d :: _ => negb (d =? 0)
    end in
  let fraction :=
    match r1 with
    | c :: r =>
        if Ascii.eqb c "." then
          match Runtime.span_digits 10 r with
          | ((_ :: _) as fp, r2) => Some (fp, r2)
          | _ => None
          end
        else Some ([], r1)
    | [] => Some ([], r1)
    end in
  match fraction with
  | None => None
  | Some (fp, r2) =>
      let exponent :=
        match r2 with
        | c :: r =>
            if Ascii.eqb c "e" || Ascii.eqb c "E" then
              let (minus, r') :=
                match r with
                | s :: r'' => if Ascii.eqb s "-" then (true, r'')
                              else if Ascii.eqb s "+" then (false, r'')
                              else (false, r)
                | [] => (false, r)
                end in
              match Runtime.span_digits 10 r' with
              | ((_ :: _) as ds, r3) =>
                  let e := Runtime.positional 10 ds in
                  Some (if minus then - e else e, r3)
              | _ => None
              end
            else Some (0, r2)
        | [] => Some (0, r2)
        end in
      match exponent with
      | Some (e, r3) =>
          if well_formed_int then
            let n := Runtime.scale (Runtime.positional 10 (ip ++ fp))
                       (e - Z.of_nat (List.length fp)) in
            Some (if negative then Runtime.negate n else n, r3)
          else None
      | None => None
      end
  end.

(** A value at the head of [l], white space skipped, and what follows it;
    [elements] and [members] read up to the closing bracket. *)
Fixpoint value (fuel : nat) (l : list ascii) : option (json * list ascii) :=
  match fuel with
  | O => None
  | S fuel' =>
      match skip_ws l with
      | "n" :: "u" :: "l" :: "l" :: rest => Some (JNull, rest)
      | "t" :: "r" :: "u" :: "e" :: rest => Some (JBool true, rest)
      | "f" :: "a" :: "l" :: "s" :: "e" :: rest => Some (JBool false, rest)
      | "034" :: rest =>
          match string_body rest with
          | Some (us, r) => Some (JString (string_of_list_ascii (text us)), r)
          | None => None
          end
      | "[" :: rest =>
          match skip_ws rest with
          | "]" :: r => Some (JArray [], r)
          | _ =>
              match elements fuel' rest with
              | Some (items, r) => Some (JArray items, r)
              | None => None
              end
          end
      | "{" :: rest =>
          match skip_ws rest with
          | "}" :: r => Some (JObject [], r)
          | _ =>
              match members fuel' rest with
              | Some (ms, r) => Some (JObject ms, r)
              | None => None
              end
          end
      | l' =>
          match number_token l' with
          | Some (n, r) => Some (JNumber n, r)
          | None => None
          end
      end
  end%char
with elements (fuel : nat) (l : list ascii) : option (list json * list ascii) :=
  match fuel with
  | O => None
  | S fuel' =>
      match value fuel' l with
      | Some (v, r) =>
          match skip_ws r with
          | "]" :: r' => Some ([v], r')
          | "," :: r' =>
              match elements fuel' r' with
              | Some (vs, r'') => Some (v :: vs, r'')
              | None => None
              end
          | _ => None
          end
      | None => None
      end
  end%char
with members (fuel : nat) (l : list ascii)
  : option (list (string * json) * list ascii) :=
  match fuel with
  | O => None
  | S fuel' =>
      match skip_ws l with
      | "034" :: r0 =>
          match string_body r0 with
          | Some (us, r1) =>
              match skip_ws r1 with
              | ":" :: r2 =>
                  match value fuel' r2 with
                  | Some (v, r3) =>
                      let m := (string_of_list_ascii (text us), v) in
                      match skip_ws r3 with
                      | "}" :: r4 => Some ([m], r4)
                      | "," :: r4 =>
                          match members fuel' r4 with
                          | Some (ms, r5) => Some (m :: ms, r5)
                          | None => None
                          end
                      | _ => None
                      end
                  | None => None
                  end
              | _ => None
              end
          | None => None
          end
      | _ => None
      end
  end%char.

(** [JSON.parse(text)] *)
Definition parse (s : string) : Exc json :=
  let l := list_ascii_of_string s in
  match value (2 * List.length l + 2) l with
  | Some (v, rest) =>
      match skip_ws rest with
      | [] => Ok v
      | _ => Throw SYNTAX_ERROR
      end
  | None => Throw SYNTAX_ERROR
  end.

End Json.

(** [Number::toString] of a number whose decimal expansion ends. *)
Module Print.

Definition digits (z : Z) : string :=
  NilZero.string_of_uint (N.to_uint (Z.to_N z)).

Fixpoint zeros (n : nat) : string :=
  match n with
  | O => EmptyString
  | S n' => String "0" (zeros n')
  end.

(** The least [e <= fuel] with [q * 10^e] integral, and that integer. *)
Fixpoint shift (fuel : nat) (e : Z) (q : Q) : Z * Z :=
  let r := Qred q in
  match fuel with
  | O => (Qnum r / Zpos (Qden r), e)
  | S fuel' =>
      if Pos.eqb (Qden r) 1 then (Qnum r, e)
      else shift fuel' (e + 1) (r * inject_Z 10)
  end.

(** Trailing zeros dropped: the digits left and how many went. *)
Fixpoint strip (fuel : nat) (m : Z) (dropped : Z) : Z * Z :=
  match fuel with
  | O => (m, dropped)
  | S fuel' =>
      if (m mod 10 =? 0) && negb (m =? 0) then strip fuel' (m / 10) (dropped + 1)
      else (m, dropped)
  end.

(** The value [s * 10^(n - k)], [s] having the [k] digits [ds]. *)
Definition layout (ds : string) (n : Z) : string :=
  let k := Z.of_nat (String.length ds) in
  if (k <=? n) && (n <=? 21) then (ds ++ zeros (Z.to_nat (n - k)))%string
  else if (0 <? n) && (n <=? 21) then
    (substring 0 (Z.to_nat n) ds ++ "."
     ++ substring (Z.to_nat n) (Z.to_nat (k - n)) ds)%string
  else if (-6 <? n) && (n <=? 0) then
    ("0." ++ zeros (Z.to_nat (- n)) ++ ds)%string
  else
    let e := n - 1 in
    let mantissa :=
      if k =? 1 then ds
      else (substring 0 1 ds ++ "." ++ substring 1 (Z.to_nat (k - 1)) ds)%string in
    let sign := if e <? 0 then "-" else "+" in
    (mantissa ++ "e" ++ sign ++ digits (Z.abs e))%string.

Definition positive (q : Q) : string :=
  let (m, e) := shift (Pos.to_nat (Pos.size (Qden q)) + 1) 0 q in
  let (s, dropped) := strip (String.length (digits m)) m 0 in
  let ds := digits s in
  layout ds (Z.of_nat (String.length ds) + dropped - e).

Definition number_to_string (n : number) : string :=
  match n with
  | NaN => "NaN"
  | Infinity negative => if negative then "-Infinity" else "Infinity"
  | Int 0 => "0"
  | _ =>
      let q := to_Q n in
      match Qnum q with
      | Zneg _ => ("-" ++ positive (- q))%string
      | _ => positive q
      end
  end.

End Print.

Module Primitive.

Definition CANNOT_CONVERT : Error :=
  mkError "TypeError" "Cannot convert object to primitive value".

(** [String(j)] for an element of an array, which [join] reads [null] as
    the empty string; an object with an own [toString] member has no
    callable [toString] left, and its [valueOf] returns no primitive. *)
Fixpoint to_string (j : json) : Exc string :=
  match j with
  | JNull => Ok "null"
  | JBool b => Ok (if b then "true" else "false")
  | JNumber n => Ok (Print.number_to_string n)
  | JString s => Ok s
  | JArray items =>
      (fix join (l : list json) : Exc string :=
         match l with
         | [] => Ok ""
         | x :: rest =>
             let first :=
               match x with
               | JNull => Ok ""
               | _ => to_string x
               end in
             match first, rest with
             | Throw e, _ => Throw e
             | Ok a, [] => Ok a
             | Ok a, _ =>
                 match join rest with
                 | Ok b => Ok (a ++ "," ++ b)%string
                 | Throw e => Throw e
                 end
             end
         end) items
  | JObject members =>
      match member "toString" members with
      | Some _ => Throw CANNOT_CONVERT
      | None => Ok "[object Object]"
      end
  end.

(** The conversion to a primitive with hint number: [valueOf] gives back
    the array or object itself, so [toString] decides. *)
Definition toPrimitive (j : json) : Exc string := to_string j.

End Primitive.

(* ------------------------------------------------------------------ *)
(** ** Vocabulary of the properties *)


(** The file is readable when [JSON.parse] does not throw on its text. *)
Definition readable (d : Disk) : Prop :=
  forall e, file d <> Some (Unparsable e).

(** The disk once [ensureDataFile] has run. *)
Definition ensured (d : Disk) : Disk :=
  match file d with
  | None => mkDisk (Some (Collection [])) (written d)
  | Some _ => d
  end.

(** The booking the POST branch builds from an accepted slot. *)
Definition booking_of (uuid now : string) (slot : Slot.t) : Booking.t :=
  Booking.mk uuid (Slot.date slot) (Slot.time slot) (Slot.duration slot)
    (Slot.startMinutes slot) (Slot.endMinutes slot) now.

(** What the sort reads of a persisted booking: a date that matches the
    date pattern and an integral [startMinutes]. *)
Definition sortable (b : Booking.t) : Prop :=
  regex_test date_pattern (Booking.date b) = true
  /\ exists s, Booking.startMinutes b = Int s.

(** [a] is listed before [b]: its date is the smaller string in
    lexicographic order, or the dates are equal and it does not start
    later. *)
Definition date_then_start (a b : Booking.t) : Prop :=
  String.compare (Booking.date a) (Booking.date b) = Lt
  \/ (Booking.date a = Booking.date b
      /\ exists s t, Booking.startMinutes a = Int s
                     /\ Booking.startMinutes b = Int t /\ s <= t).

(** A booking carries the normalized fields of a slot. *)
Definition same_slot (slot : Slot.t) (b : Booking.t) : Prop :=
  Booking.date b = Slot.date slot /\ Booking.time b = Slot.time slot
  /\ Booking.duration b = Slot.duration slot
  /\ Booking.startMinutes b = Slot.startMinutes slot
  /\ Booking.endMinutes b = Slot.endMinutes slot.

(** The invariants of a persisted booking (data model): shapes of date and
    time, a positive integral duration, and start and end minutes derived
    from them within the day. *)
Definition booking_ok (StringToNumber : string -> number) (b : Booking.t) : Prop :=
  regex_test date_pattern (Booking.date b) = true
  /\ regex_test time_pattern (Booking.time b) = true
  /\ exists s d,
       Booking.duration b = Int d /\ Booking.startMinutes b = Int s
       /\ Booking.endMinutes b = Int (s + d)
       /\ toMinutes StringToNumber (Booking.time b) = Int s
       /\ 0 <= s /\ 0 < d /\ s + d <= 1440.

(** Two bookings of the same date do not overlap. *)
Definition disjoint (a b : Booking.t) : Prop :=
  Booking.date a = Booking.date b ->
  hasOverlap (Booking.startMinutes a) (Booking.endMinutes a)
             (Booking.startMinutes b) (Booking.endMinutes b) = false.

(** The invariant of the store: the file parses, every booking is well
    formed, and no two of them collide. *)
Definition store_ok (StringToNumber : string -> number) (d : Disk) : Prop :=
  readable d
  /\ Forall (booking_ok StringToNumber) (collection d)
  /\ ForallOrdPairs disjoint (collection d).

(** The disks a server started without a data file can get to, one request
    after the other. *)
Inductive reachable (StringToNumber : string -> number)
    (localeCompare : string -> string -> Z) : Disk -> Prop :=
| reachable_start : reachable StringToNumber localeCompare (mkDisk None [])
| reachable_request (d : Disk) (uuid now : string) (r : route) :
    reachable StringToNumber localeCompare d ->
    reachable StringToNumber localeCompare
      (snd (handleApi StringToNumber localeCompare uuid now r d)).

(** The text of a body: its chunks, one after the other. *)
Definition whole (chunks : list string) : string :=
  fold_right String.append EmptyString chunks.

(** The body is over the limit of [parseRequestBody]:
    [text.length > 1_000_000]. *)
Definition oversized (text : string) : bool :=
  PAYLOAD_LIMIT <? length16 text.

(** What the end of the stream settles a pending promise with. *)
Definition at_end (JSON_parse : string -> Exc json) (text : string) : Exc json :=
  if String.eqb text "" then Ok (JObject [])
  else match JSON_parse text with
       | Ok parsed => Ok parsed
       | Throw _ => Throw INVALID_JSON
       end.

(** The body the validator reads off a parsed value that is not [null]. *)
Definition fields (ToPrimitive : json -> Exc string) (body : json) : Body.t :=
  Body.mk (property ToPrimitive body "date") (property ToPrimitive body "time")
    (property ToPrimitive body "duration").

(** The handler [m] with its response sent. *)
Definition sent (m : M response) : M (option response) :=
  r <- m ;; ret (Some r).

(** [c] occurs in [s]. *)
Fixpoint occurs (c : ascii) (s : string) : bool :=
  match s with
  | EmptyString => false
  | String x s' => Ascii.eqb x c || occurs c s'
  end.

(** What the [.catch] of the POST branch answers to [error]. *)
Definition caught (error : Error) : response :=
  sendJson (if String.eqb (message error) "Payload too large" then 413 else 400)
    (ErrorBody (message error)).

(** JSON texts of the examples, written with ['] for the double quote. *)
Module Wire.

Definition text (s : string) : string :=
  string_of_list_ascii
    (map (fun c => if Ascii.eqb c "'" then "034"%char else c)
       (list_ascii_of_string s)).

Definition nine : string := text "{'date':'2024-06-01','time':'09:00','duration':60}".

Definition nine_with_more : string :=
  text "{'id':'mine','date':'2024-06-01','startMinutes':0,'time':'09:00','duration':60,'createdAt':'never'}".

(** A duration that [Number] cannot coerce: its own [toString] is not a
    function. *)
Definition unconvertible : string :=
  text "{'date':'x','time':'09:00','duration':{'toString':1}}".

End Wire.

(** Sample data: the conflict scenario of the specification. *)
Module Sample.

Definition syntax_error : Error :=
  mkError "SyntaxError" "Unexpected token o in JSON at position 1".

Definition nine : Booking.t :=
  Booking.mk "id-1" "2024-06-01" "09:00" (Int 60) (Int 540) (Int 600)
    "2024-05-30T08:00:00.000Z".

Definition ten : Booking.t :=
  Booking.mk "id-2" "2024-06-01" "10:00" (Int 30) (Int 600) (Int 630)
    "2024-05-30T08:05:00.000Z".

Definition earlier : Booking.t :=
  Booking.mk "id-3" "2024-05-31" "23:00" (Int 60) (Int 1380) (Int 1440)
    "2024-05-30T08:10:00.000Z".

Definition disk : Disk := mkDisk (Some (Collection [nine; ten; earlier])) [].

Definition corrupt : Disk := mkDisk (Some (Unparsable syntax_error)) [].

(** The fields of [Wire.unconvertible]. *)
Definition unconvertible : Body.t :=
  Body.mk (Str "x") (Str "09:00") (Object (Throw Primitive.CANNOT_CONVERT)).

(** [n] euro signs (U+20AC: the bytes E2 82 AC). *)
Fixpoint euros (n : nat) : string :=
  match n with
  | O => EmptyString
  | S n' => String "226" (String "130" (String "172" (euros n')))
  end.

Definition request (date time : string) (duration : Z) : Body.t :=
  Body.mk (Str date) (Str time) (Num (Int duration)).

End Sample.

(* ================================================================== *)
(** * Properties *)

(** ** Numbers *)

Lemma lt_Int (x y : Z) : lt (Int x) (Int y) = (x <? y).
Proof. reflexivity. Qed.

Lemma gt_Int (x y : Z) : gt (Int x) (Int y) = (y <? x).
Proof. reflexivity. Qed.

Lemma lt_irrefl (x : number) : lt x x = false.
Proof.
  destruct x as [ | s | z | q ]; simpl; trivial.
  - now destruct s.
  - apply Z.ltb_irrefl.
  - now rewrite (proj1 (Qeq_alt q q) (Qeq_refl q)).
Qed.

(** [Number.isInteger(n) && n > 0] holds of the positive integers only. *)
Lemma positive_integer_iff (n : number) :
  isInteger n && gt n (Int 0) = true <-> exists z, n = Int z /\ 0 < z.
Proof.
  split.
  - destruct n as [ | s | z | q ]; try discriminate.
    rewrite gt_Int. simpl. intros H. exists z. split; [ reflexivity | lia ].
  - intros (z & -> & Hz). rewrite gt_Int. simpl. lia.
Qed.

(** ** Digits, patterns and [split] *)

Lemma digit_val_range (c : ascii) :
  is_digit c = true -> 0 <= digit_val c <= 9.
Proof.
  unfold is_digit, digit_val. cbv zeta.
  rewrite andb_true_iff, !N.leb_le. lia.
Qed.

Lemma is_digit_not (c l : ascii) :
  is_digit c = true -> is_digit l = false -> Ascii.eqb c l = false.
Proof.
  intros Hc Hl. destruct (Ascii.eqb_spec c l) as [-> | ]; congruence.
Qed.

(** A string matches the time pattern exactly when it is two digits, a
    colon and two digits. *)
Lemma time_pattern_inv (s : string) :
  regex_test time_pattern s = true ->
  exists h1 h2 m1 m2,
    s = String h1 (String h2 (String ":" (String m1 (String m2 EmptyString))))
    /\ is_digit h1 = true /\ is_digit h2 = true
    /\ is_digit m1 = true /\ is_digit m2 = true.
Proof.
  destruct s as [ | h1 [ | h2 [ | c [ | m1 [ | m2 [ | ? ? ] ] ] ] ] ]; simpl;
    rewrite ?andb_false_r; try discriminate.
  rewrite !andb_true_iff, Ascii.eqb_eq.
  intros (H1 & H2 & -> & H3 & H4 & _). now exists h1, h2, m1, m2.
Qed.

Lemma split_time (h1 h2 m1 m2 : ascii) :
  is_digit h1 = true -> is_digit h2 = true ->
  is_digit m1 = true -> is_digit m2 = true ->
  split ":" (String h1 (String h2 (String ":" (String m1 (String m2 EmptyString)))))
  = [String h1 (String h2 EmptyString); String m1 (String m2 EmptyString)].
Proof.
  intros H1 H2 H3 H4. cbn [split].
  rewrite Ascii.eqb_refl, !is_digit_not by (trivial; reflexivity).
  reflexivity.
Qed.

(** ** The slot validator *)


Section ValidatorFacts.

Variable StringToNumber : string -> number.

(** What StringToNumber gives on two decimal digits. *)
Hypothesis StringToNumber_digits :
  forall a b : ascii,
    is_digit a = true -> is_digit b = true ->
    StringToNumber (String a (String b EmptyString))
    = Int (10 * digit_val a + digit_val b).

Lemma toMinutes_digits (h1 h2 m1 m2 : ascii) :
  is_digit h1 = true -> is_digit h2 = true ->
  is_digit m1 = true -> is_digit m2 = true ->
  toMinutes StringToNumber
    (String h1 (String h2 (String ":" (String m1 (String m2 EmptyString)))))
  = Int ((10 * digit_val h1 + digit_val h2) * 60
         + (10 * digit_val m1 + digit_val m2)).
Proof.
  intros H1 H2 H3 H4. unfold toMinutes.
  rewrite split_time by assumption. cbn [map nth].
  now rewrite !StringToNumber_digits by assumption.
Qed.

(** On a time that matches its pattern [toMinutes] is an integer between 0
    and 99 * 60 + 99. *)
Lemma toMinutes_time (time : string) :
  regex_test time_pattern time = true ->
  exists s, toMinutes StringToNumber time = Int s /\ 0 <= s <= 6039.
Proof.
  intros (h1 & h2 & m1 & m2 & -> & H1 & H2 & H3 & H4)%time_pattern_inv.
  rewrite toMinutes_digits by assumption.
  eexists. split; [ reflexivity | ].
  apply digit_val_range in H1, H2, H3, H4. lia.
Qed.

End ValidatorFacts.

(** The validator, by cases on what its three tests find. *)
Lemma parseAndValidateSlot_eq (StringToNumber : string -> number)
    (body : Body.t) (n : number) :
  Number StringToNumber (Body.duration body) = Ok n ->
  parseAndValidateSlot StringToNumber body =
  let date := string_or_empty (Body.date body) in
  let time := string_or_empty (Body.time body) in
  if regex_test date_pattern date && regex_test time_pattern time
     && (isInteger n && gt n (Int 0))
  then if gt (add (toMinutes StringToNumber time) n) (Int 1440)
       then Ok (Rejected MIDNIGHT)
       else Ok (Accepted (Slot.mk date time n (toMinutes StringToNumber time)
                            (add (toMinutes StringToNumber time) n)))
  else Ok (Rejected INVALID).
Proof.
  intros Hn. unfold parseAndValidateSlot. rewrite Hn. cbv zeta.
  destruct (regex_test date_pattern _), (regex_test time_pattern _),
    (isInteger n && gt n (Int 0)); reflexivity.
Qed.

(** ** The evaluation runtime satisfies what the sections assume *)

Lemma is_digit_cases (c : ascii) :
  is_digit c = true ->
  In c ["0"; "1"; "2"; "3"; "4"; "5"; "6"; "7"; "8"; "9"]%char.
Proof.
  destruct c as [[|] [|] [|] [|] [|] [|] [|] [|]]; intros H;
    try discriminate H; simpl; tauto.
Qed.

Lemma readNumber_digits (a b : ascii) :
  is_digit a = true -> is_digit b = true ->
  Runtime.readNumber (String a (String b EmptyString))
  = Int (10 * digit_val a + digit_val b).
Proof.
  intros Ha%is_digit_cases Hb%is_digit_cases.
  repeat (destruct Ha as [<- | Ha]; [ | ]); try contradiction;
    repeat (destruct Hb as [<- | Hb]; [ | ]); try contradiction;
    reflexivity.
Qed.

(** ** Claims about the validator *)

Section ValidatorClaims.

Variable StringToNumber : string -> number.

Hypothesis StringToNumber_digits :
  forall a b : ascii,
    is_digit a = true -> is_digit b = true ->
    StringToNumber (String a (String b EmptyString))
    = Int (10 * digit_val a + digit_val b).

(** An accepted request passed the three tests. *)
Lemma accepted_inv (body : Body.t) (slot : Slot.t) :
  parseAndValidateSlot StringToNumber body = Ok (Accepted slot) ->
  exists d s,
    regex_test date_pattern (Slot.date slot) = true
    /\ regex_test time_pattern (Slot.time slot) = true
    /\ Number StringToNumber (Body.duration body) = Ok (Int d)
    /\ Slot.date slot = string_or_empty (Body.date body)
    /\ Slot.time slot = string_or_empty (Body.time body)
    /\ toMinutes StringToNumber (Slot.time slot) = Int s
    /\ slot = Slot.mk (Slot.date slot) (Slot.time slot) (Int d) (Int s) (Int (s + d))
    /\ 0 <= s /\ 0 < d /\ s + d <= 1440.
Proof.
  intros H.
  destruct (Number StringToNumber (Body.duration body)) as [n | e] eqn:Hn.
  2: { unfold parseAndValidateSlot in H. now rewrite Hn in H. }
  rewrite (parseAndValidateSlot_eq _ _ _ Hn) in H. cbv zeta in H.
  destruct (regex_test date_pattern _) eqn:Hd; [ | discriminate H ].
  destruct (regex_test time_pattern _) eqn:Ht; [ | discriminate H ].
  destruct (isInteger n && gt n (Int 0)) eqn:Hp; [ | discriminate H ].
  apply positive_integer_iff in Hp as (d & -> & Hd0).
  destruct (toMinutes_time _ StringToNumber_digits _ Ht) as (s & Hs & Hs0 & _).
  rewrite Hs in H. simpl in H.
  destruct (1440 <? s + d) eqn:Hm; [ discriminate H | ].
  injection H as <-. simpl. exists d, s.
  repeat split; trivial; lia.
Qed.

(** C3. Every slot the validator accepts has integral [startMinutes] and
    [endMinutes] with 0 <= startMinutes < endMinutes <= 1440, where
    [startMinutes] is [toMinutes(time)] and [endMinutes] is
    [startMinutes + duration]. *)
Theorem accepted_slot_minutes (body : Body.t) (slot : Slot.t) :
  parseAndValidateSlot StringToNumber body = Ok (Accepted slot) ->
  exists s e : Z,
    Slot.startMinutes slot = Int s /\ Slot.endMinutes slot = Int e
    /\ 0 <= s /\ s < e /\ e <= 1440
    /\ Slot.startMinutes slot = toMinutes StringToNumber (Slot.time slot)
    /\ Slot.endMinutes slot = add (Slot.startMinutes slot) (Slot.duration slot).
Proof.
  intros (d & s & _ & _ & _ & _ & _ & Hs & -> & H0 & Hd & He)%accepted_inv.
  exists s, (s + d). simpl in Hs |- *. rewrite Hs.
  repeat split; trivial; lia.
Qed.


(** C9. A time matches its pattern whatever its digits, a minute field of
    60 or more included: [toMinutes] is hours * 60 + minutes of the two
    fields (555 for 08:75), and the request is accepted whenever that plus
    the duration is at most 1440, keeping the time string as it came; the
    POST branch then persists a booking whose time is 08:75. *)
Theorem minute_field_unbounded :
  (forall (date : string) (h1 h2 m1 m2 : ascii) (d : Z),
      regex_test date_pattern date = true ->
      is_digit h1 = true -> is_digit h2 = true ->
      is_digit m1 = true -> is_digit m2 = true ->
      let time := String h1 (String h2 (String ":" (String m1 (String m2 EmptyString)))) in
      let s := (10 * digit_val h1 + digit_val h2) * 60
               + (10 * digit_val m1 + digit_val m2) in
      0 < d -> s + d <= 1440 ->
      parseAndValidateSlot StringToNumber (Body.mk (Str date) (Str time) (Num (Int d)))
      = Ok (Accepted (Slot.mk date time (Int d) (Int s) (Int (s + d)))))
  /\ toMinutes StringToNumber "08:75" = Int 555
  /\ parseAndValidateSlot StringToNumber
       (Body.mk (Str "2024-05-01") (Str "08:75") (Num (Int 30)))
     = Ok (Accepted (Slot.mk "2024-05-01" "08:75" (Int 30) (Int 555) (Int 585)))
  /\ (forall uuid now : string,
        createBooking StringToNumber uuid now
          (Body.mk (Str "2024-05-01") (Str "08:75") (Num (Int 30)))
          (mkDisk None [])
        = (sendJson 201
             (BookingBody
                (Booking.mk uuid "2024-05-01" "08:75" (Int 30) (Int 555)
                   (Int 585) now)),
           mkDisk
             (Some (Collection
                      [Booking.mk uuid "2024-05-01" "08:75" (Int 30) (Int 555)
                         (Int 585) now]))
             [[Booking.mk uuid "2024-05-01" "08:75" (Int 30) (Int 555)
                 (Int 585) now]])).
Proof.
  assert (General :
    forall (date : string) (h1 h2 m1 m2 : ascii) (d : Z),
      regex_test date_pattern date = true ->
      is_digit h1 = true -> is_digit h2 = true ->
      is_digit m1 = true -> is_digit m2 = true ->
      let time := String h1 (String h2 (String ":" (String m1 (String m2 EmptyString)))) in
      let s := (10 * digit_val h1 + digit_val h2) * 60
               + (10 * digit_val m1 + digit_val m2) in
      0 < d -> s + d <= 1440 ->
      parseAndValidateSlot StringToNumber (Body.mk (Str date) (Str time) (Num (Int d)))
      = Ok (Accepted (Slot.mk date time (Int d) (Int s) (Int (s + d))))).
  { intros date h1 h2 m1 m2 d Hd H1 H2 H3 H4 time s Hpos Hend.
    rewrite (parseAndValidateSlot_eq StringToNumber _ (Int d)) by reflexivity.
    cbv zeta. simpl string_or_empty. rewrite Hd.
    assert (Ht : regex_test time_pattern time = true).
    { unfold time. simpl. now rewrite H1, H2, H3, H4. }
    rewrite Ht. subst time. rewrite !(toMinutes_digits _ StringToNumber_digits) by assumption.
    fold s. simpl isInteger. simpl add. rewrite !gt_Int.
    replace (0 <? d) with true by (symmetry; lia).
    replace (1440 <? s + d) with false by (symmetry; lia). cbn [andb]. reflexivity. }
  assert (At0875 :
    parseAndValidateSlot StringToNumber
      (Body.mk (Str "2024-05-01") (Str "08:75") (Num (Int 30)))
    = Ok (Accepted (Slot.mk "2024-05-01" "08:75" (Int 30) (Int 555) (Int 585)))).
  { now apply (General "2024-05-01" "0"%char "8"%char "7"%char "5"%char 30). }
  split; [ exact General | split; [ | split ] ].
  - now rewrite (toMinutes_digits _ StringToNumber_digits).
  - exact At0875.
  - intros uuid now.
    unfold createBooking, createBooking_then, bind, lift. now rewrite At0875.
Qed.

End ValidatorClaims.


(** ** The data file *)

Lemma collection_ensured (d : Disk) : collection (ensured d) = collection d.
Proof. unfold ensured, collection. now destruct (file d) eqn:E; simpl; rewrite ?E. Qed.

Lemma written_ensured (d : Disk) : written (ensured d) = written d.
Proof. unfold ensured. now destruct (file d). Qed.

Lemma readBookings_readable (d : Disk) :
  readable d -> readBookings d = (Ok (collection d), ensured d).
Proof.
  intros Hr. unfold readBookings, bind, ensureDataFile, ensured, collection.
  destruct (file d) as [[e | | bookings] | ] eqn:Hf; simpl; rewrite ?Hf; trivial.
  now elim (Hr e).
Qed.

Lemma readBookings_unparsable (d : Disk) (e : Error) :
  file d = Some (Unparsable e) -> readBookings d = (Throw e, d).
Proof.
  intros Hf. unfold readBookings, bind, ensureDataFile. now rewrite Hf, Hf.
Qed.

(** ** Lists: [find] and [filter] *)

(** [find] stops at the first element that satisfies the predicate. *)
Lemma find_first {A : Type} (f : A -> bool) (l : list A) (x : A) :
  find f l = Some x ->
  exists pre post,
    l = pre ++ x :: post /\ f x = true /\ forall y, In y pre -> f y = false.
Proof.
  induction l as [ | a l IH ]; simpl; [ discriminate | ].
  destruct (f a) eqn:Ha.
  - intros [= ->]. exists [], l. now repeat split.
  - intros (pre & post & -> & Hx & Hpre)%IH.
    exists (a :: pre), post. repeat split; trivial.
    intros y [<- | Hy]; auto.
Qed.

Lemma find_some_iff {A : Type} (f : A -> bool) (l : list A) :
  (exists x, find f l = Some x) <-> exists y, In y l /\ f y = true.
Proof.
  split.
  - intros (x & Hx). exists x. now apply find_some in Hx.
  - intros (y & Hy & Hf). destruct (find f l) as [x | ] eqn:E; [ now exists x | ].
    now rewrite (find_none _ _ E _ Hy) in Hf.
Qed.

(** [filter] keeps the length exactly when it removes nothing. *)
Lemma filter_length_iff {A : Type} (f : A -> bool) (l : list A) :
  List.length (filter f l) = List.length l <-> forall x, In x l -> f x = true.
Proof.
  rewrite <- forallb_forall. split.
  - apply filter_length_forallb.
  - intros H. now rewrite forallb_filter_id.
Qed.

(** ** The POST branch, unfolded *)

Lemma createBooking_accepted (StringToNumber : string -> number)
    (uuid now : string) (body : Body.t) (slot : Slot.t) (d : Disk) :
  readable d ->
  parseAndValidateSlot StringToNumber body = Ok (Accepted slot) ->
  createBooking StringToNumber uuid now body d =
  match find (conflicts slot) (collection d) with
  | Some conflict => (sendJson 409 (ConflictBody OVERLAPS conflict), ensured d)
  | None =>
      let bookings := collection d ++ [booking_of uuid now slot] in
      (sendJson 201 (BookingBody (booking_of uuid now slot)),
       mkDisk (Some (Collection bookings)) (written d ++ [bookings]))
  end.
Proof.
  intros Hr Hs. unfold createBooking, createBooking_then, bind, lift.
  rewrite Hs, (readBookings_readable _ Hr).
  destruct (find _ _); [ reflexivity | ].
  unfold writeBookings, ret, booking_of. now rewrite written_ensured.
Qed.

Lemma createBooking_rejected (StringToNumber : string -> number)
    (uuid now : string) (body : Body.t) (error : string) (d : Disk) :
  parseAndValidateSlot StringToNumber body = Ok (Rejected error) ->
  createBooking StringToNumber uuid now body d
  = (sendJson 400 (ErrorBody error), d).
Proof.
  intros Hs. unfold createBooking, createBooking_then, bind, lift.
  now rewrite Hs.
Qed.

(** ** The DELETE branch, unfolded *)

Lemma deleteBooking_readable (bookingId : string) (d : Disk) :
  readable d ->
  deleteBooking bookingId d =
  let next :=
    filter (fun item => negb (String.eqb (Booking.id item) bookingId))
      (collection d) in
  if Nat.eqb (List.length next) (List.length (collection d))
  then (Ok (sendJson 404 (ErrorBody "Booking not found.")), ensured d)
  else (Ok (sendJson 200 OkBody),
        mkDisk (Some (Collection next)) (written d ++ [next])).
Proof.
  intros Hr. unfold deleteBooking, bind. rewrite (readBookings_readable _ Hr).
  cbv zeta. destruct (Nat.eqb _ _); [ reflexivity | ].
  unfold writeBookings, ret. now rewrite written_ensured.
Qed.

(** ** Claims about conflicts *)

Lemma hasOverlap_touching (a x b : number) :
  hasOverlap a x x b = false /\ hasOverlap x b a x = false.
Proof.
  unfold hasOverlap, gt. now rewrite lt_irrefl, andb_false_r.
Qed.

Lemma conflicts_iff (slot : Slot.t) (e : Booking.t) :
  conflicts slot e = true <->
  Booking.date e = Slot.date slot
  /\ lt (Slot.startMinutes slot) (Booking.endMinutes e) = true
  /\ gt (Slot.endMinutes slot) (Booking.startMinutes e) = true.
Proof.
  unfold conflicts, hasOverlap. now rewrite !andb_true_iff, String.eqb_eq.
Qed.

(** C2. For a valid slot and a readable data file, the POST branch answers
    with the conflict error, carrying a booking of the collection, exactly
    when some booking of the collection has the very same date string and
    passes [newStart < existingEnd && newEnd > existingStart]; intervals
    that only touch never overlap, so a slot is created when every booking
    of its date ends where it starts or starts where it ends, and also when
    no booking has its date. *)
Theorem conflict_iff (StringToNumber : string -> number)
    (uuid now : string) (body : Body.t) (slot : Slot.t) (d : Disk) :
  readable d ->
  parseAndValidateSlot StringToNumber body = Ok (Accepted slot) ->
  let res := fst (createBooking StringToNumber uuid now body d) in
  ((exists c, In c (collection d)
              /\ res = sendJson 409 (ConflictBody OVERLAPS c))
   <-> exists e, In e (collection d)
                 /\ Booking.date e = Slot.date slot
                 /\ lt (Slot.startMinutes slot) (Booking.endMinutes e) = true
                 /\ gt (Slot.endMinutes slot) (Booking.startMinutes e) = true)
  /\ (forall a x b, hasOverlap a x x b = false /\ hasOverlap x b a x = false)
  /\ ((forall e, In e (collection d) -> Booking.date e = Slot.date slot ->
         Booking.endMinutes e = Slot.startMinutes slot
         \/ Booking.startMinutes e = Slot.endMinutes slot) ->
      res = sendJson 201 (BookingBody (booking_of uuid now slot)))
  /\ ((forall e, In e (collection d) -> Booking.date e <> Slot.date slot) ->
      res = sendJson 201 (BookingBody (booking_of uuid now slot))).
Proof.
  intros Hr Hs res.
  assert (Hres := createBooking_accepted StringToNumber uuid now body slot d Hr Hs).
  assert (Free : (forall e, In e (collection d) -> conflicts slot e = false) ->
                 res = sendJson 201 (BookingBody (booking_of uuid now slot))).
  { intros H. subst res. rewrite Hres.
    destruct (find _ _) as [c | ] eqn:E; [ | reflexivity ].
    apply find_some in E as (Hin & Hc). now rewrite (H c Hin) in Hc. }
  split; [ | split; [ | split ] ].
  - subst res. rewrite Hres. split.
    + intros (c & _ & E).
      destruct (find _ _) as [c' | ] eqn:F; [ | discriminate E ].
      apply find_some in F as (Hin & Hc). exists c'. split; [ exact Hin | ].
      now apply conflicts_iff.
    + intros (e & He & Hc%conflicts_iff).
      destruct (find _ _) as [c | ] eqn:F.
      * exists c. split; [ | reflexivity ]. now apply find_some in F.
      * now rewrite (find_none _ _ F e He) in Hc.
  - apply hasOverlap_touching.
  - intros H. apply Free. intros e He.
    unfold conflicts.
    destruct (String.eqb_spec (Booking.date e) (Slot.date slot)) as [Hd | ];
      [ | reflexivity ].
    destruct (H e He Hd) as [-> | <-]; apply hasOverlap_touching.
  - intros H. apply Free. intros e He. unfold conflicts.
    now rewrite (proj2 (String.eqb_neq _ _) (H e He)).
Qed.

(** C10. The booking a conflict error carries is the first one, in the
    order of the persisted array, that conflicts with the slot: the answer
    is the conflict error with [c] exactly when the array is some [pre],
    then [c], then some [post], with [c] conflicting and nothing in [pre]
    conflicting, whatever [post] holds. *)
Theorem conflict_is_first (StringToNumber : string -> number)
    (uuid now : string) (body : Body.t) (slot : Slot.t) (d : Disk)
    (c : Booking.t) :
  readable d ->
  parseAndValidateSlot StringToNumber body = Ok (Accepted slot) ->
  fst (createBooking StringToNumber uuid now body d)
  = sendJson 409 (ConflictBody OVERLAPS c)
  <-> exists pre post,
        collection d = pre ++ c :: post
        /\ conflicts slot c = true
        /\ forall e, In e pre -> conflicts slot e = false.
Proof.
  intros Hr Hs.
  rewrite (createBooking_accepted StringToNumber uuid now body slot d Hr Hs).
  split.
  - destruct (find _ _) as [c' | ] eqn:F; [ | discriminate ].
    intros [= <-]. now apply find_first.
  - intros (pre & post & -> & Hc & Hpre).
    assert (F : find (conflicts slot) (pre ++ c :: post) = Some c).
    { clear Hr. induction pre as [ | a pre IH ]; simpl.
      - now rewrite Hc.
      - rewrite (Hpre a) by now left. apply IH. intros e He. apply Hpre. now right. }
    now rewrite F.
Qed.

(** ** Claims about deletion *)

(** C6. On a readable data file the DELETE branch leaves as collection the
    bookings whose id differs from the requested one, in their order; it
    calls [writeBookings], with that array, exactly when the length
    changed, that is when some booking had the id; it answers 404 "Booking
    not found." exactly when none had, and 200 otherwise, without throwing;
    and when none had the id, nothing is written and the collection is the
    one it was. *)
Theorem delete_removes_by_id (bookingId : string) (d : Disk) :
  readable d ->
  let next :=
    filter (fun item => negb (String.eqb (Booking.id item) bookingId))
      (collection d) in
  let found := exists b, In b (collection d) /\ Booking.id b = bookingId in
  let res := fst (deleteBooking bookingId d) in
  let d' := snd (deleteBooking bookingId d) in
  collection d' = next
  /\ (forall b, In b (collection d') <->
                In b (collection d) /\ Booking.id b <> bookingId)
  /\ (List.length next <> List.length (collection d) <-> found)
  /\ (List.length next <> List.length (collection d) ->
      written d' = written d ++ [next] /\ file d' = Some (Collection next))
  /\ (List.length next = List.length (collection d) ->
      written d' = written d /\ d' = ensured d)
  /\ (res = Ok (sendJson 404 (ErrorBody "Booking not found.")) <-> ~ found)
  /\ (res = Ok (sendJson 200 OkBody) <-> found)
  /\ (~ found -> written d' = written d /\ collection d' = collection d).
Proof.
  intros Hr next found res d'.
  assert (Hlen : List.length next = List.length (collection d) <-> ~ found).
  { unfold next. rewrite filter_length_iff. unfold found. split.
    - intros H (b & Hb & Hid). specialize (H b Hb).
      now rewrite Hid, String.eqb_refl in H.
    - intros H b Hb. destruct (String.eqb_spec (Booking.id b) bookingId); trivial.
      elim H. now exists b. }
  assert (Hfound : List.length next <> List.length (collection d) <-> found).
  { split.
    - intros Hne. unfold next in Hne. rewrite filter_length_iff in Hne.
      destruct (find (fun item => String.eqb (Booking.id item) bookingId)
                  (collection d)) as [b | ] eqn:F.
      + apply find_some in F as (Hb & Hid%String.eqb_eq). now exists b.
      + elim Hne. intros x Hx. now rewrite (find_none _ _ F x Hx).
    - intros Hf Heq. now apply Hlen in Heq. }
  assert (Hmem : forall b, In b next <->
                   In b (collection d) /\ Booking.id b <> bookingId).
  { intros b. unfold next. rewrite filter_In, negb_true_iff, String.eqb_neq.
    reflexivity. }
  assert (E := deleteBooking_readable bookingId d Hr). cbv zeta in E. fold next in E.
  subst res d'. rewrite E.
  destruct (Nat.eqb_spec (List.length next) (List.length (collection d)))
    as [Heq | Hne]; cbn [fst snd].
  - assert (Hnext : next = collection d).
    { unfold next. apply forallb_filter_id, forallb_forall.
      now apply filter_length_iff. }
    rewrite collection_ensured, written_ensured.
    split; [ now symmetry | ].
    split; [ intros b; now rewrite <- Hmem, Hnext | ].
    split; [ exact Hfound | ].
    split; [ intros Hne; now elim Hne | ].
    split; [ now split | ].
    split; [ split; [ intros _; now apply Hlen | reflexivity ] | ].
    split; [ split; [ discriminate | intros Hf; now apply Hlen in Heq ] | ].
    now split.
  - assert (Hcol : collection (mkDisk (Some (Collection next)) (written d ++ [next]))
                   = next) by reflexivity.
    rewrite Hcol. cbn [written file].
    split; [ reflexivity | ].
    split; [ exact Hmem | ].
    split; [ exact Hfound | ].
    split; [ now split | ].
    split; [ intros Heq; now elim Hne | ].
    split; [ split; [ discriminate | intros Hnf; now apply Hlen in Hnf ] | ].
    split; [ split; [ intros _; now apply Hfound | reflexivity ] | ].
    intros Hnf. now apply Hlen in Hnf.
Qed.

(** ** Sorting *)

Section SortFacts.

Context {A : Type}.
Variable comparefn : A -> A -> number.

Lemma insert_Permutation (x : A) (l : list A) :
  Permutation (insert comparefn x l) (x :: l).
Proof.
  induction l as [ | y l IH ]; cbn [insert]; [ reflexivity | ].
  destruct (gt (comparefn x y) (Int 0)); [ | reflexivity ].
  rewrite IH. apply perm_swap.
Qed.

(** [sort] reorders and nothing else. *)
Lemma sort_Permutation (l : list A) : Permutation (sort comparefn l) l.
Proof.
  induction l as [ | x l IH ]; simpl; [ reflexivity | ].
  now rewrite insert_Permutation, IH.
Qed.

(** The comparator decides the order [R] on the elements that satisfy [P]:
    not greater means before, greater means after. *)
Variable P : A -> Prop.
Variable R : A -> A -> Prop.
Hypothesis not_greater : forall x y, P x -> P y ->
  gt (comparefn x y) (Int 0) = false -> R x y.
Hypothesis greater : forall x y, P x -> P y ->
  gt (comparefn x y) (Int 0) = true -> R y x.

Lemma insert_Sorted (x : A) (l : list A) :
  P x -> Forall P l -> Sorted R l -> Sorted R (insert comparefn x l).
Proof.
  intros Hx HP HS. induction HS as [ | y l HS IH Hhd ]; cbn [insert].
  - repeat constructor.
  - inversion_clear HP as [ | ? ? Hy HPl ].
    destruct (gt (comparefn x y) (Int 0)) eqn:E.
    + constructor; [ now apply IH | ].
      destruct Hhd as [ | z l Hz ]; cbn [insert].
      * constructor. now apply greater.
      * destruct (gt (comparefn x z) (Int 0)); constructor; trivial.
        now apply greater.
    + constructor; [ now constructor | ].
      constructor. now apply not_greater.
Qed.

Lemma sort_Sorted (l : list A) : Forall P l -> Sorted R (sort comparefn l).
Proof.
  induction 1 as [ | x l Hx HP IH ]; simpl; [ constructor | ].
  apply insert_Sorted; trivial.
  now rewrite sort_Permutation.
Qed.

End SortFacts.

(** ** Lexicographic order of strings *)

Lemma ascii_compare_refl (c : ascii) : Ascii.compare c c = Eq.
Proof. apply N.compare_refl. Qed.

Lemma ascii_compare_lt_trans (a b c : ascii) :
  Ascii.compare a b = Lt -> Ascii.compare b c = Lt -> Ascii.compare a c = Lt.
Proof.
  unfold Ascii.compare. rewrite !N.compare_lt_iff. apply N.lt_trans.
Qed.

Lemma string_compare_lt_trans (a b c : string) :
  String.compare a b = Lt -> String.compare b c = Lt -> String.compare a c = Lt.
Proof.
  revert b c. induction a as [ | x a IH ]; intros [ | y b ] [ | z c ]; simpl;
    try discriminate; trivial.
  destruct (Ascii.compare x y) eqn:Exy; try discriminate.
  - apply Ascii.compare_eq_iff in Exy as ->.
    destruct (Ascii.compare y z); try discriminate; trivial. apply IH.
  - intros _. destruct (Ascii.compare y z) eqn:Eyz; try discriminate.
    + apply Ascii.compare_eq_iff in Eyz as <-. now rewrite Exy.
    + intros _. now rewrite (ascii_compare_lt_trans _ _ _ Exy Eyz).
Qed.

Lemma string_compare_refl (a : string) : String.compare a a = Eq.
Proof.
  induction a as [ | x a IH ]; simpl; [ reflexivity | ].
  now rewrite ascii_compare_refl.
Qed.

(** ** Claims about listing *)

Lemma date_then_start_trans (a b c : Booking.t) :
  date_then_start a b -> date_then_start b c -> date_then_start a c.
Proof.
  intros [Hab | (Hab & s & t & Hs & Ht & Hst)] [Hbc | (Hbc & t' & u & Ht' & Hu & Htu)].
  - left. eapply string_compare_lt_trans; eassumption.
  - left. now rewrite <- Hbc.
  - left. now rewrite Hab.
  - right. split; [ congruence | ]. exists s, u.
    rewrite Ht in Ht'. injection Ht' as <-. repeat split; trivial. lia.
Qed.

Section ListClaims.

Variable localeCompare : string -> string -> Z.

(** On two strings of the date shape the collation order is the
    lexicographic one. *)
Hypothesis localeCompare_dates :
  forall a b : string,
    regex_test date_pattern a = true -> regex_test date_pattern b = true ->
    (localeCompare a b ?= 0) = String.compare a b.

Lemma compareBookings_not_greater (a b : Booking.t) :
  sortable a -> sortable b ->
  gt (compareBookings localeCompare a b) (Int 0) = false -> date_then_start a b.
Proof.
  intros (Ha & s & Hs) (Hb & t & Ht). unfold compareBookings.
  destruct (String.eqb_spec (Booking.date a) (Booking.date b)) as [E | N].
  - rewrite Hs, Ht. cbn [sub]. rewrite gt_Int. intros H.
    right. split; [ exact E | ]. exists s, t. repeat split; trivial. lia.
  - rewrite gt_Int. intros H. left.
    pose proof (localeCompare_dates _ _ Ha Hb) as L.
    destruct (String.compare _ _) eqn:C; trivial.
    + now apply String.compare_eq_iff in C.
    + pose proof (proj1 (Z.compare_gt_iff _ _) L). exfalso. lia.
Qed.

Lemma compareBookings_greater (a b : Booking.t) :
  sortable a -> sortable b ->
  gt (compareBookings localeCompare a b) (Int 0) = true -> date_then_start b a.
Proof.
  intros (Ha & s & Hs) (Hb & t & Ht). unfold compareBookings.
  destruct (String.eqb_spec (Booking.date a) (Booking.date b)) as [E | N].
  - rewrite Hs, Ht. cbn [sub]. rewrite gt_Int. intros H.
    right. split; [ now symmetry | ]. exists t, s. repeat split; trivial. lia.
  - rewrite gt_Int. intros H. left.
    pose proof (localeCompare_dates _ _ Ha Hb) as L.
    rewrite String.compare_antisym.
    destruct (String.compare (Booking.date a) (Booking.date b)) eqn:C; trivial.
    + apply Z.compare_eq_iff in L. exfalso. lia.
    + pose proof (proj1 (Z.compare_lt_iff _ _) L). exfalso. lia.
Qed.

(** The comparator of the GET branch sorts by date and then by start. *)
Lemma sort_compareBookings_sorted (bookings : list Booking.t) :
  Forall sortable bookings ->
  StronglySorted date_then_start (sort (compareBookings localeCompare) bookings).
Proof.
  intros Hs. apply Sorted_StronglySorted.
  - intros a b c. apply date_then_start_trans.
  - apply (sort_Sorted (compareBookings localeCompare) sortable); trivial.
    + apply compareBookings_not_greater.
    + apply compareBookings_greater.
Qed.

(** C7. On a readable data file whose bookings have dates of the date
    shape and integral start minutes, the GET branch answers 200 with the
    whole collection, reordered so that every booking stands before all
    those of a lexicographically greater date and, among equal dates,
    before all those that do not start earlier; it writes nothing and
    leaves the collection in the order it had. *)
Theorem list_sorted_by_date_then_start (d : Disk) :
  readable d ->
  Forall sortable (collection d) ->
  exists sorted,
    listBookings localeCompare d
    = (Ok (sendJson 200 (BookingsBody sorted)), ensured d)
    /\ Permutation sorted (collection d)
    /\ StronglySorted date_then_start sorted
    /\ collection (ensured d) = collection d
    /\ written (ensured d) = written d.
Proof.
  intros Hr Hs. exists (sort (compareBookings localeCompare) (collection d)).
  split; [ | split; [ | split; [ | split ] ] ].
  - unfold listBookings, bind. now rewrite (readBookings_readable _ Hr).
  - apply sort_Permutation.
  - now apply sort_compareBookings_sorted.
  - apply collection_ensured.
  - apply written_ensured.
Qed.

End ListClaims.

(** ** Claims about the round trip *)

Lemma readable_collection (bookings : list Booking.t) (w : list (list Booking.t)) :
  readable (mkDisk (Some (Collection bookings)) w).
Proof. intros e. discriminate. Qed.

Lemma listBookings_readable (localeCompare : string -> string -> Z) (d : Disk) :
  readable d ->
  listBookings localeCompare d
  = (Ok (sendJson 200
           (BookingsBody (sort (compareBookings localeCompare) (collection d)))),
     ensured d).
Proof.
  intros Hr. unfold listBookings, bind. now rewrite (readBookings_readable _ Hr).
Qed.

Section RoundTrip.

Variable StringToNumber : string -> number.
Variable localeCompare : string -> string -> Z.

Hypothesis StringToNumber_digits :
  forall a b : ascii,
    is_digit a = true -> is_digit b = true ->
    StringToNumber (String a (String b EmptyString))
    = Int (10 * digit_val a + digit_val b).

(** A booking with the date, start and end of an accepted slot conflicts
    with it. *)
Lemma same_slot_conflicts (body : Body.t) (slot : Slot.t) (b : Booking.t) :
  parseAndValidateSlot StringToNumber body = Ok (Accepted slot) ->
  same_slot slot b -> conflicts slot b = true.
Proof.
  intros Hs (Hd & _ & _ & Hstart & Hend).
  destruct (accepted_inv _ StringToNumber_digits _ _ Hs)
    as (dur & s & _ & _ & _ & _ & _ & _ & E & _ & Hpos & _).
  apply conflicts_iff. rewrite Hstart, Hend, E. cbn [Slot.startMinutes Slot.endMinutes].
  rewrite gt_Int, lt_Int. repeat split; trivial; lia.
Qed.

(** C8. For a valid slot that conflicts with nothing, with an id no
    booking has yet: the POST branch answers 201 with the booking built
    from the slot; the listing that follows holds it at one place and no
    other listed booking has the slot's five fields; deleting its id is
    answered 200; and the listing after that does not hold it and is the
    listing of the collection as it was before the create. *)
Theorem create_list_delete (uuid now : string) (body : Body.t)
    (slot : Slot.t) (d : Disk) :
  readable d ->
  parseAndValidateSlot StringToNumber body = Ok (Accepted slot) ->
  (forall e, In e (collection d) -> conflicts slot e = false) ->
  (forall e, In e (collection d) -> Booking.id e <> uuid) ->
  let booking := booking_of uuid now slot in
  exists d1 listed1 d2 d3 listed3 d4,
    createBooking StringToNumber uuid now body d
    = (sendJson 201 (BookingBody booking), d1)
    /\ listBookings localeCompare d1
       = (Ok (sendJson 200 (BookingsBody listed1)), d2)
    /\ same_slot slot booking
    /\ (exists before after,
          listed1 = before ++ booking :: after
          /\ forall b, In b (before ++ after) -> ~ same_slot slot b)
    /\ deleteBooking (Booking.id booking) d2 = (Ok (sendJson 200 OkBody), d3)
    /\ listBookings localeCompare d3
       = (Ok (sendJson 200 (BookingsBody listed3)), d4)
    /\ ~ In booking listed3
    /\ listed3 = sort (compareBookings localeCompare) (collection d)
    /\ collection d4 = collection d.
Proof.
  intros Hr Hs Hfree Hfresh booking.
  set (bookings := collection d ++ [booking]).
  set (d1 := mkDisk (Some (Collection bookings)) (written d ++ [bookings])).
  set (d3 := mkDisk (Some (Collection (collection d)))
               (written d1 ++ [collection d])).
  exists d1, (sort (compareBookings localeCompare) bookings), d1, d3,
    (sort (compareBookings localeCompare) (collection d)), d3.
  assert (Hnotin : ~ In booking (collection d)).
  { intros Hin. now apply (Hfresh _ Hin). }
  assert (Hfilter :
    filter (fun item => negb (String.eqb (Booking.id item) uuid)) bookings
    = collection d).
  { unfold bookings. rewrite filter_app. simpl. rewrite String.eqb_refl. simpl.
    rewrite app_nil_r. apply forallb_filter_id, forallb_forall.
    intros e He. now apply negb_true_iff, String.eqb_neq, Hfresh. }
  split; [ | split; [ | split; [ | split; [ | split; [ | split; [ | split; [ | split ] ] ] ] ] ] ].
  - rewrite (createBooking_accepted StringToNumber uuid now body slot d Hr Hs).
    destruct (find _ _) as [c | ] eqn:F; [ | reflexivity ].
    apply find_some in F as (Hin & Hc). now rewrite (Hfree c Hin) in Hc.
  - now rewrite listBookings_readable by apply readable_collection.
  - now repeat split.
  - assert (Hin : In booking (sort (compareBookings localeCompare) bookings)).
    { eapply Permutation_in; [ symmetry; apply sort_Permutation | ].
      unfold bookings. apply in_or_app. right. now left. }
    apply in_split in Hin as (before & after & E). exists before, after.
    split; [ exact E | ].
    intros b Hb Hsame.
    assert (Hperm : Permutation (before ++ after) (collection d)).
    { apply Permutation_cons_inv with (a := booking).
      rewrite Permutation_middle, <- E, sort_Permutation.
      unfold bookings. now rewrite Permutation_app_comm. }
    apply (Permutation_in _ Hperm) in Hb.
    specialize (Hfree b Hb).
    now rewrite (same_slot_conflicts body slot b Hs Hsame) in Hfree.
  - rewrite deleteBooking_readable by apply readable_collection.
    cbv zeta. change (collection d1) with bookings.
    change (Booking.id booking) with uuid. rewrite Hfilter.
    unfold bookings at 1. rewrite length_app. simpl.
    destruct (Nat.eqb_spec (List.length (collection d))
                (List.length (collection d) + 1)) as [E | _]; [ lia | ].
    reflexivity.
  - now rewrite listBookings_readable by apply readable_collection.
  - intros Hin. apply Hnotin.
    eapply Permutation_in; [ apply sort_Permutation | exact Hin ].
  - reflexivity.
  - reflexivity.
Qed.

End RoundTrip.

(** ** Claims about loading *)

(** C1 does not hold of the code.  The half on a data file that parses to
    something that is not an array does: it is read as the empty collection
    and left as it is, and the GET branch lists nothing.  On a data file
    that does not parse the load does not return the empty collection: the
    exception of the bare [JSON.parse(raw)] leaves [readBookings], and with
    it the GET and DELETE branches, which send no response; the POST branch
    reads the file only for a request the validator accepts, and then its
    [.catch] answers with the parser's message.  The file is left as it
    is. *)
Theorem unparsable_file_throws (StringToNumber : string -> number)
    (localeCompare : string -> string -> Z)
    (w : list (list Booking.t)) (e : Error) :
  let corrupt := mkDisk (Some (Unparsable e)) w in
  readBookings (mkDisk (Some NotArray) w) = (Ok [], mkDisk (Some NotArray) w)
  /\ listBookings localeCompare (mkDisk (Some NotArray) w)
     = (Ok (sendJson 200 (BookingsBody [])), mkDisk (Some NotArray) w)
  /\ readBookings corrupt = (Throw e, corrupt)
  /\ fst (readBookings corrupt) <> Ok []
  /\ listBookings localeCompare corrupt = (Throw e, corrupt)
  /\ (forall bookingId, deleteBooking bookingId corrupt = (Throw e, corrupt))
  /\ (forall uuid now body,
        createBooking StringToNumber uuid now body corrupt
        = match parseAndValidateSlot StringToNumber body with
          | Ok (Accepted _) => (caught e, corrupt)
          | Ok (Rejected error) => (sendJson 400 (ErrorBody error), corrupt)
          | Throw thrown => (caught thrown, corrupt)
          end).
Proof.
  intros corrupt.
  assert (R := readBookings_unparsable corrupt e eq_refl).
  split; [ reflexivity | ].
  split; [ reflexivity | ].
  split; [ exact R | ].
  split; [ rewrite R; discriminate | ].
  split; [ unfold listBookings, bind; now rewrite R | ].
  split; [ intros bookingId; unfold deleteBooking, bind; now rewrite R | ].
  intros uuid now body. unfold createBooking, createBooking_then, bind, lift.
  now destruct (parseAndValidateSlot StringToNumber body) as [[slot | error] | thrown].
Qed.

(** On the sample: with a data file that does not parse, the load throws
    and the GET branch sends no response. *)
Lemma corrupt_load_throws :
  fst (readBookings Sample.corrupt) <> Ok []
  /\ fst (handleApi Runtime.readNumber Runtime.codeUnitCompare "id-9"
            "2024-06-01T00:00:00.000Z" GetBookings Sample.corrupt)
     = Throw Sample.syntax_error.
Proof. split; [ discriminate | reflexivity ]. Qed.

(** ** The claims on the sample data *)

Lemma codeUnitCompare_sign (a b : string) :
  (Runtime.codeUnitCompare a b ?= 0) = String.compare a b.
Proof. unfold Runtime.codeUnitCompare. now destruct (String.compare a b). Qed.

Lemma readable_sample : readable Sample.disk.
Proof. apply readable_collection. Qed.

Lemma sortable_sample : Forall sortable (collection Sample.disk).
Proof.
  repeat constructor; simpl; eauto.
Qed.

Lemma accepted_slot_minutes_at_nine :
  parseAndValidateSlot Runtime.readNumber (Sample.request "2024-06-01" "09:00" 60)
  = Ok (Accepted (Slot.mk "2024-06-01" "09:00" (Int 60) (Int 540) (Int 600)))
  /\ exists s e : Z,
       Int 540 = Int s /\ Int 600 = Int e /\ 0 <= s /\ s < e /\ e <= 1440
       /\ Int 540 = toMinutes Runtime.readNumber "09:00"
       /\ Int 600 = add (Int 540) (Int 60).
Proof.
  split; [ reflexivity | ].
  exact (accepted_slot_minutes Runtime.readNumber readNumber_digits
           (Sample.request "2024-06-01" "09:00" 60)
           (Slot.mk "2024-06-01" "09:00" (Int 60) (Int 540) (Int 600)) eq_refl).
Defined.




Lemma minute_field_unbounded_at_0875 :
  toMinutes Runtime.readNumber "08:75" = Int 555
  /\ parseAndValidateSlot Runtime.readNumber (Sample.request "2024-05-01" "08:75" 30)
     = Ok (Accepted (Slot.mk "2024-05-01" "08:75" (Int 30) (Int 555) (Int 585))).
Proof.
  pose proof (proj2 (minute_field_unbounded Runtime.readNumber readNumber_digits))
    as (Hminutes & Haccepted & _).
  exact (conj Hminutes Haccepted).
Defined.

Lemma conflict_iff_at_0930 :
  readable Sample.disk
  /\ parseAndValidateSlot Runtime.readNumber (Sample.request "2024-06-01" "09:30" 30)
     = Ok (Accepted (Slot.mk "2024-06-01" "09:30" (Int 30) (Int 570) (Int 600)))
  /\ exists c, In c (collection Sample.disk)
               /\ fst (createBooking Runtime.readNumber "id-9"
                         "2024-06-01T00:00:00.000Z"
                         (Sample.request "2024-06-01" "09:30" 30) Sample.disk)
                  = sendJson 409 (ConflictBody OVERLAPS c).
Proof.
  split; [ exact readable_sample | ]. split; [ reflexivity | ].
  apply (proj2 (proj1 (conflict_iff Runtime.readNumber "id-9"
                         "2024-06-01T00:00:00.000Z"
                         (Sample.request "2024-06-01" "09:30" 30)
                         (Slot.mk "2024-06-01" "09:30" (Int 30) (Int 570) (Int 600))
                         Sample.disk readable_sample eq_refl))).
  exists Sample.nine. simpl. repeat split. now left.
Defined.

Lemma conflict_is_first_at_0930 :
  fst (createBooking Runtime.readNumber "id-9" "2024-06-01T00:00:00.000Z"
         (Sample.request "2024-06-01" "09:30" 60) Sample.disk)
  = sendJson 409 (ConflictBody OVERLAPS Sample.nine)
  /\ conflicts (Slot.mk "2024-06-01" "09:30" (Int 60) (Int 570) (Int 630))
       Sample.ten = true.
Proof.
  split; [ | reflexivity ].
  apply (proj2 (conflict_is_first Runtime.readNumber "id-9"
                  "2024-06-01T00:00:00.000Z"
                  (Sample.request "2024-06-01" "09:30" 60)
                  (Slot.mk "2024-06-01" "09:30" (Int 60) (Int 570) (Int 630))
                  Sample.disk Sample.nine readable_sample eq_refl)).
  exists [], [Sample.ten; Sample.earlier]. repeat split. intros e [].
Defined.

Lemma delete_removes_by_id_at_id2 :
  readable Sample.disk
  /\ collection (snd (deleteBooking "id-2" Sample.disk))
     = [Sample.nine; Sample.earlier]
  /\ fst (deleteBooking "id-2" Sample.disk) = Ok (sendJson 200 OkBody).
Proof.
  split; [ exact readable_sample | ].
  pose proof (delete_removes_by_id "id-2" Sample.disk readable_sample) as H.
  cbv zeta in H. split; [ exact (proj1 H) | ].
  apply (proj2 (proj1 (proj2 (proj2 (proj2 (proj2 (proj2 (proj2 H)))))))).
  exists Sample.ten. split; [ right; now left | reflexivity ].
Defined.

Lemma list_sorted_at_sample :
  readable Sample.disk
  /\ Forall sortable (collection Sample.disk)
  /\ exists sorted,
       listBookings Runtime.codeUnitCompare Sample.disk
       = (Ok (sendJson 200 (BookingsBody sorted)), ensured Sample.disk)
       /\ Permutation sorted (collection Sample.disk)
       /\ StronglySorted date_then_start sorted
       /\ collection (ensured Sample.disk) = collection Sample.disk
       /\ written (ensured Sample.disk) = written Sample.disk.
Proof.
  split; [ exact readable_sample | ]. split; [ exact sortable_sample | ].
  exact (list_sorted_by_date_then_start Runtime.codeUnitCompare
           (fun a b _ _ => codeUnitCompare_sign a b)
           Sample.disk readable_sample sortable_sample).
Defined.

Lemma create_list_delete_at_eleven :
  let slot := Slot.mk "2024-06-01" "11:00" (Int 60) (Int 660) (Int 720) in
  let booking := booking_of "id-9" "2024-06-01T00:00:00.000Z" slot in
  parseAndValidateSlot Runtime.readNumber (Sample.request "2024-06-01" "11:00" 60)
  = Ok (Accepted slot)
  /\ (forall e, In e (collection Sample.disk) -> conflicts slot e = false)
  /\ (forall e, In e (collection Sample.disk) -> Booking.id e <> "id-9")
  /\ exists d1 listed1 d2 d3 listed3 d4,
       createBooking Runtime.readNumber "id-9" "2024-06-01T00:00:00.000Z"
         (Sample.request "2024-06-01" "11:00" 60) Sample.disk
       = (sendJson 201 (BookingBody booking), d1)
       /\ listBookings Runtime.codeUnitCompare d1
          = (Ok (sendJson 200 (BookingsBody listed1)), d2)
       /\ same_slot slot booking
       /\ (exists before after,
             listed1 = before ++ booking :: after
             /\ forall b, In b (before ++ after) -> ~ same_slot slot b)
       /\ deleteBooking (Booking.id booking) d2 = (Ok (sendJson 200 OkBody), d3)
       /\ listBookings Runtime.codeUnitCompare d3
          = (Ok (sendJson 200 (BookingsBody listed3)), d4)
       /\ ~ In booking listed3
       /\ listed3 = sort (compareBookings Runtime.codeUnitCompare)
                      (collection Sample.disk)
       /\ collection d4 = collection Sample.disk.
Proof.
  intros slot booking.
  assert (Hfree : forall e, In e (collection Sample.disk) -> conflicts slot e = false).
  { intros e [<- | [<- | [<- | []]]]; reflexivity. }
  assert (Hfresh : forall e, In e (collection Sample.disk) -> Booking.id e <> "id-9").
  { intros e [<- | [<- | [<- | []]]]; discriminate. }
  split; [ reflexivity | ]. split; [ exact Hfree | ]. split; [ exact Hfresh | ].
  exact (create_list_delete Runtime.readNumber Runtime.codeUnitCompare
           readNumber_digits "id-9" "2024-06-01T00:00:00.000Z"
           (Sample.request "2024-06-01" "11:00" 60) slot Sample.disk
           readable_sample eq_refl Hfree Hfresh).
Defined.

(** ** The invariant of the store *)

Lemma hasOverlap_sym (aStart aEnd bStart bEnd : number) :
  hasOverlap aStart aEnd bStart bEnd = hasOverlap bStart bEnd aStart aEnd.
Proof. unfold hasOverlap, gt. apply andb_comm. Qed.

Lemma ForallOrdPairs_snoc {A : Type} (R : A -> A -> Prop) (l : list A) (x : A) :
  ForallOrdPairs R l -> Forall (fun y => R y x) l -> ForallOrdPairs R (l ++ [x]).
Proof.
  induction 1 as [ | a l Ha Hl IH ]; simpl; intros Hx.
  - repeat constructor.
  - inversion_clear Hx as [ | ? ? Hax Hlx ]. constructor; [ | now apply IH ].
    apply Forall_app. split; [ exact Ha | now constructor ].
Qed.

Lemma ForallOrdPairs_filter {A : Type} (R : A -> A -> Prop) (f : A -> bool)
    (l : list A) :
  ForallOrdPairs R l -> ForallOrdPairs R (filter f l).
Proof.
  induction 1 as [ | a l Ha Hl IH ]; simpl; [ constructor | ].
  destruct (f a); [ | exact IH ].
  constructor; [ | exact IH ].
  apply Forall_forall. intros x Hx%filter_In.
  now apply (proj1 (Forall_forall _ _) Ha).
Qed.

Lemma Forall_filter {A : Type} (P : A -> Prop) (f : A -> bool) (l : list A) :
  Forall P l -> Forall P (filter f l).
Proof.
  rewrite !Forall_forall. intros H x Hx%filter_In. now apply H.
Qed.

Lemma readable_ensured (d : Disk) : readable d -> readable (ensured d).
Proof.
  intros Hr. unfold ensured. destruct (file d) eqn:E; [ exact Hr | ].
  apply readable_collection.
Qed.

Lemma createBooking_throws (StringToNumber : string -> number)
    (uuid now : string) (body : Body.t) (e : Error) (d : Disk) :
  parseAndValidateSlot StringToNumber body = Throw e ->
  snd (createBooking StringToNumber uuid now body d) = d.
Proof.
  intros Hs. unfold createBooking, createBooking_then, bind, lift.
  now rewrite Hs.
Qed.

Section Invariant.

Variable StringToNumber : string -> number.
Variable localeCompare : string -> string -> Z.

Hypothesis StringToNumber_digits :
  forall a b : ascii,
    is_digit a = true -> is_digit b = true ->
    StringToNumber (String a (String b EmptyString))
    = Int (10 * digit_val a + digit_val b).

Lemma store_ok_ensured (d : Disk) :
  store_ok StringToNumber d -> store_ok StringToNumber (ensured d).
Proof.
  intros (Hr & Hok & Hdis). unfold store_ok. rewrite collection_ensured.
  auto using readable_ensured.
Qed.

(** The booking built from an accepted slot is well formed. *)
Lemma booking_of_ok (uuid now : string) (body : Body.t) (slot : Slot.t) :
  parseAndValidateSlot StringToNumber body = Ok (Accepted slot) ->
  booking_ok StringToNumber (booking_of uuid now slot).
Proof.
  intros H. destruct (accepted_inv _ StringToNumber_digits _ _ H)
    as (dur & s & Hd & Ht & _ & _ & _ & Hs & -> & H0 & Hpos & Hend).
  unfold booking_ok, booking_of. simpl in *.
  repeat split; trivial. exists s, dur. now repeat split.
Qed.

(** Every request keeps the invariant. *)
Lemma handleApi_store_ok (uuid now : string) (r : route) (d : Disk) :
  store_ok StringToNumber d ->
  store_ok StringToNumber
    (snd (handleApi StringToNumber localeCompare uuid now r d)).
Proof.
  intros Hd. pose proof Hd as (Hr & Hok & Hdis).
  destruct r as [ | body | bookingId | ]; simpl.
  - rewrite listBookings_readable by assumption. now apply store_ok_ensured.
  - replace (snd (let (res, d') := createBooking StringToNumber uuid now body d in
                  (Ok res, d')))
      with (snd (createBooking StringToNumber uuid now body d))
      by now destruct (createBooking _ _ _ _ _).
    destruct (parseAndValidateSlot StringToNumber body) as [[error | slot] | e] eqn:Hs.
    + now rewrite (createBooking_rejected _ _ _ _ _ _ Hs).
    + rewrite (createBooking_accepted _ _ _ _ _ _ Hr Hs).
      destruct (find _ _) as [c | ] eqn:F; [ now apply store_ok_ensured | ].
      cbv zeta. cbn [snd]. split; [ apply readable_collection | ].
      unfold collection at 1 3. cbn [file]. split.
      * apply Forall_app. split; [ exact Hok | ].
        constructor; [ | constructor ]. now apply booking_of_ok with (body := body).
      * apply ForallOrdPairs_snoc; [ exact Hdis | ].
        apply Forall_forall. intros e He Hdate.
        pose proof (find_none _ _ F e He) as Hc. unfold conflicts in Hc.
        simpl in Hdate. rewrite Hdate, String.eqb_refl in Hc.
        simpl in Hc |- *. now rewrite hasOverlap_sym.
    + now rewrite (createBooking_throws _ _ _ _ _ d Hs).
  - rewrite deleteBooking_readable by assumption. cbv zeta.
    destruct (Nat.eqb _ _); cbn [snd]; [ now apply store_ok_ensured | ].
    split; [ apply readable_collection | ].
    unfold collection at 1 3. cbn [file].
    split; [ now apply Forall_filter | now apply ForallOrdPairs_filter ].
  - exact Hd.
Qed.

(** X1. Whatever requests a single caller sends one after the other, the
    data file stays parsable, every persisted booking keeps the invariants of the
    data model, and no two bookings of one date overlap. *)
Theorem reachable_store_ok (d : Disk) :
  reachable StringToNumber localeCompare d -> store_ok StringToNumber d.
Proof.
  induction 1 as [ | d uuid now r _ IH ].
  - split; [ intros e; discriminate | split; constructor ].
  - now apply handleApi_store_ok.
Qed.

End Invariant.

(** ** Further properties of the store *)

(** Example. When the data file does not exist yet, loading creates it with the
    empty array and returns the empty collection; [writeBookings] was not
    called. *)
Theorem absent_file_is_empty (w : list (list Booking.t)) :
  readBookings (mkDisk None w) = (Ok [], mkDisk (Some (Collection [])) w).
Proof. reflexivity. Qed.

(** X6. The overlap test does not depend on which interval is named
    first. *)
Theorem overlap_symmetric (aStart aEnd bStart bEnd : number) :
  hasOverlap aStart aEnd bStart bEnd = hasOverlap bStart bEnd aStart aEnd.
Proof. unfold hasOverlap, gt. apply andb_comm. Qed.

(** X3. Listing twice, with nothing in between, gives the same answer, and the
    second listing leaves the disk as the first left it. *)
Theorem list_twice (localeCompare : string -> string -> Z) (d : Disk) :
  readable d ->
  let first := listBookings localeCompare d in
  let second := listBookings localeCompare (snd first) in
  fst second = fst first /\ snd second = snd first.
Proof.
  intros Hr first second. subst second first.
  rewrite (listBookings_readable localeCompare d Hr). cbn [fst snd].
  rewrite listBookings_readable by now apply readable_ensured.
  rewrite collection_ensured. cbn [fst snd]. split; [ reflexivity | ].
  unfold ensured. destruct (file d) eqn:E; simpl; now rewrite ?E.
Qed.

(** X4. A created booking is appended to the collection as loaded, the whole
    array is written once, and the earlier bookings stay where they were. *)
Theorem create_appends (StringToNumber : string -> number)
    (uuid now : string) (body : Body.t) (booking : Booking.t) (d : Disk) :
  readable d ->
  fst (createBooking StringToNumber uuid now body d)
  = sendJson 201 (BookingBody booking) ->
  let d' := snd (createBooking StringToNumber uuid now body d) in
  collection d' = collection d ++ [booking]
  /\ written d' = written d ++ [collection d ++ [booking]]
  /\ Booking.id booking = uuid /\ Booking.createdAt booking = now.
Proof.
  intros Hr Hres d'. subst d'.
  destruct (parseAndValidateSlot StringToNumber body) as [[error | slot] | e] eqn:Hs.
  - now rewrite (createBooking_rejected _ _ _ _ _ d Hs) in Hres.
  - rewrite (createBooking_accepted _ _ _ _ _ _ Hr Hs) in Hres |- *.
    destruct (find _ _); [ discriminate Hres | ].
    cbn in Hres. injection Hres as <-. now repeat split.
  - unfold createBooking, createBooking_then, bind, lift in Hres.
    rewrite Hs in Hres. cbn [fst] in Hres.
    destruct (String.eqb _ _); discriminate Hres.
Qed.

(** X5. A request the validator rejects is answered 400 with the validator's
    message and does not touch the disk. *)
Theorem rejected_request_reads_nothing (StringToNumber : string -> number)
    (uuid now : string) (body : Body.t) (error : string) (d : Disk) :
  parseAndValidateSlot StringToNumber body = Ok (Rejected error) ->
  createBooking StringToNumber uuid now body d
  = (sendJson 400 (ErrorBody error), d).
Proof. apply createBooking_rejected. Qed.

(** Example. The conflict scenario of the specification, run on an absent data
    file: 09:00 for 60 minutes is created, 09:30 for 30 minutes is refused
    with the first booking as the conflict, 10:00 for 30 minutes is
    created. *)
Theorem conflict_scenario :
  let post uuid time duration :=
    createBooking Runtime.readNumber uuid "2024-05-30T08:00:00.000Z"
      (Sample.request "2024-06-01" time duration) in
  let first :=
    Booking.mk "id-1" "2024-06-01" "09:00" (Int 60) (Int 540) (Int 600)
      "2024-05-30T08:00:00.000Z" in
  let third :=
    Booking.mk "id-3" "2024-06-01" "10:00" (Int 30) (Int 600) (Int 630)
      "2024-05-30T08:00:00.000Z" in
  let d0 := mkDisk None [] in
  let d1 := snd (post "id-1" "09:00" 60 d0) in
  let d2 := snd (post "id-2" "09:30" 30 d1) in
  let d3 := snd (post "id-3" "10:00" 30 d2) in
  fst (post "id-1" "09:00" 60 d0) = sendJson 201 (BookingBody first)
  /\ fst (post "id-2" "09:30" 30 d1) = sendJson 409 (ConflictBody OVERLAPS first)
  /\ fst (post "id-3" "10:00" 30 d2) = sendJson 201 (BookingBody third)
  /\ collection d3 = [first; third]
  /\ written d3 = [[first]; [first; third]].
Proof. vm_compute. repeat split. Qed.

(** Example. The same time on another date does not conflict. *)
Theorem other_date_is_free :
  fst (createBooking Runtime.readNumber "id-9" "2024-05-30T08:00:00.000Z"
         (Sample.request "2024-06-02" "09:00" 60) Sample.disk)
  = sendJson 201
      (BookingBody
         (Booking.mk "id-9" "2024-06-02" "09:00" (Int 60) (Int 540) (Int 600)
            "2024-05-30T08:00:00.000Z")).
Proof. reflexivity. Qed.

(** X2. After any sequence of requests the listing is sorted by date and
    then by start. *)
Theorem reachable_list_sorted (StringToNumber : string -> number)
    (localeCompare : string -> string -> Z) (d : Disk) :
  (forall a b : ascii,
      is_digit a = true -> is_digit b = true ->
      StringToNumber (String a (String b EmptyString))
      = Int (10 * digit_val a + digit_val b)) ->
  (forall a b : string,
      regex_test date_pattern a = true -> regex_test date_pattern b = true ->
      (localeCompare a b ?= 0) = String.compare a b) ->
  reachable StringToNumber localeCompare d ->
  exists sorted,
    fst (listBookings localeCompare d) = Ok (sendJson 200 (BookingsBody sorted))
    /\ Permutation sorted (collection d)
    /\ StronglySorted date_then_start sorted.
Proof.
  intros HS HL Hd.
  assert (Hinv : store_ok StringToNumber d).
  { induction Hd as [ | d uuid now r _ IH ].
    - split; [ intros e; discriminate | split; constructor ].
    - now apply handleApi_store_ok. }
  destruct Hinv as (Hr & Hok & _).
  assert (Hsort : Forall sortable (collection d)).
  { eapply Forall_impl; [ | exact Hok ].
    intros b (Hdate & _ & s & dur & _ & Hs & _). split; eauto. }
  exists (sort (compareBookings localeCompare) (collection d)).
  rewrite (listBookings_readable localeCompare d Hr).
  split; [ reflexivity | ].
  split; [ apply sort_Permutation | ].
  now apply sort_compareBookings_sorted.
Qed.

Lemma reachable_store_ok_after_create :
  store_ok Runtime.readNumber
    (snd (handleApi Runtime.readNumber Runtime.codeUnitCompare "id-1"
            "2024-05-30T08:00:00.000Z"
            (PostBookings (Sample.request "2024-06-01" "09:00" 60))
            (mkDisk None []))).
Proof.
  apply (reachable_store_ok Runtime.readNumber Runtime.codeUnitCompare
           readNumber_digits).
  apply reachable_request, reachable_start.
Defined.

Lemma list_twice_at_sample :
  readable Sample.disk
  /\ fst (listBookings Runtime.codeUnitCompare
            (snd (listBookings Runtime.codeUnitCompare Sample.disk)))
     = fst (listBookings Runtime.codeUnitCompare Sample.disk).
Proof.
  split; [ exact readable_sample | ].
  exact (proj1 (list_twice Runtime.codeUnitCompare Sample.disk readable_sample)).
Defined.

Lemma create_appends_at_eleven :
  readable Sample.disk
  /\ collection
       (snd (createBooking Runtime.readNumber "id-9" "2024-05-30T08:00:00.000Z"
               (Sample.request "2024-06-01" "11:00" 60) Sample.disk))
     = collection Sample.disk
       ++ [Booking.mk "id-9" "2024-06-01" "11:00" (Int 60) (Int 660) (Int 720)
             "2024-05-30T08:00:00.000Z"].
Proof.
  split; [ exact readable_sample | ].
  exact (proj1 (create_appends Runtime.readNumber "id-9"
                  "2024-05-30T08:00:00.000Z"
                  (Sample.request "2024-06-01" "11:00" 60) _ Sample.disk
                  readable_sample eq_refl)).
Defined.

Lemma rejected_request_at_2330 :
  parseAndValidateSlot Runtime.readNumber (Sample.request "2024-06-01" "23:30" 31)
  = Ok (Rejected MIDNIGHT)
  /\ createBooking Runtime.readNumber "id-9" "2024-05-30T08:00:00.000Z"
       (Sample.request "2024-06-01" "23:30" 31) Sample.disk
     = (sendJson 400 (ErrorBody MIDNIGHT), Sample.disk).
Proof.
  split; [ reflexivity | ].
  exact (rejected_request_reads_nothing Runtime.readNumber "id-9"
           "2024-05-30T08:00:00.000Z" (Sample.request "2024-06-01" "23:30" 31)
           MIDNIGHT Sample.disk eq_refl).
Defined.

Lemma reachable_list_sorted_after_create :
  exists sorted,
    fst (listBookings Runtime.codeUnitCompare
           (snd (handleApi Runtime.readNumber Runtime.codeUnitCompare "id-1"
                   "2024-05-30T08:00:00.000Z"
                   (PostBookings (Sample.request "2024-06-01" "09:00" 60))
                   (mkDisk None []))))
    = Ok (sendJson 200 (BookingsBody sorted))
    /\ Permutation sorted
         (collection
            (snd (handleApi Runtime.readNumber Runtime.codeUnitCompare "id-1"
                    "2024-05-30T08:00:00.000Z"
                    (PostBookings (Sample.request "2024-06-01" "09:00" 60))
                    (mkDisk None []))))
    /\ StronglySorted date_then_start sorted.
Proof.
  apply (reachable_list_sorted Runtime.readNumber Runtime.codeUnitCompare _
           readNumber_digits (fun a b _ _ => codeUnitCompare_sign a b)).
  apply reachable_request, reachable_start.
Defined.

(** ** Request bodies *)

Lemma code_units_range (c : ascii) : 0 <= code_units c <= 2.
Proof.
  unfold code_units. cbv zeta.
  destruct (_ && _); [ lia | ]. destruct (240 <=? _); lia.
Qed.

Lemma length16_nonneg (s : string) : 0 <= length16 s.
Proof.
  induction s as [ | c s IH ]; cbn [length16]; [ lia | ].
  pose proof (code_units_range c). lia.
Qed.

(** [(a + b).length] is [a.length + b.length]. *)
Lemma length16_append (a b : string) :
  length16 (a ++ b)%string = length16 a + length16 b.
Proof.
  induction a as [ | c a IH ]; cbn [append length16]; [ reflexivity | ].
  rewrite IH. lia.
Qed.

(** A text of ASCII characters has as many code units as bytes. *)
Lemma length16_ascii (s : string) :
  Forall (fun c => (N_of_ascii c < 128)%N) (list_ascii_of_string s) ->
  length16 s = Z.of_nat (String.length s).
Proof.
  induction s as [ | c s IH ]; cbn [length16 String.length list_ascii_of_string];
    intros H; [ reflexivity | ].
  inversion H as [ | x l Hc Hs ]; subst. rewrite (IH Hs), Nat2Z.inj_succ.
  unfold code_units. cbv zeta.
  replace (128 <=? Z.of_N (N_of_ascii c)) with false
    by (symmetry; apply Z.leb_gt; lia).
  replace (240 <=? Z.of_N (N_of_ascii c)) with false
    by (symmetry; apply Z.leb_gt; lia).
  cbn [andb]. lia.
Qed.

(** A character of three bytes is one code unit: [n] euro signs take [3 n]
    bytes and have length [n], so a body of 400,000 of them is within the
    limit. *)
Lemma length16_euros (n : nat) :
  length16 (Sample.euros n) = Z.of_nat n
  /\ String.length (Sample.euros n) = (3 * n)%nat.
Proof.
  induction n as [ | n (IH1 & IH2) ]; [ now split | ].
  split.
  - change (length16 (Sample.euros (S n)))
      with (1 + (0 + (0 + length16 (Sample.euros n)))).
    rewrite IH1. lia.
  - cbn [Sample.euros String.length]. rewrite IH2. lia.
Qed.

Lemma euros_within_limit (n : nat) :
  Z.of_nat n <= PAYLOAD_LIMIT -> oversized (Sample.euros n) = false.
Proof.
  intros H. unfold oversized. rewrite (proj1 (length16_euros n)).
  now apply Z.ltb_ge.
Qed.

Lemma append_empty_r (a : string) : (a ++ "")%string = a.
Proof. induction a as [ | c a IH ]; simpl; [ reflexivity | now rewrite IH ]. Qed.

Lemma append_assoc (a b c : string) :
  ((a ++ b) ++ c)%string = (a ++ (b ++ c))%string.
Proof. induction a as [ | x a IH ]; simpl; [ reflexivity | now rewrite IH ]. Qed.

Section RequestBodyFacts.

Variable JSON_parse : string -> Exc json.

(** A settled promise is not settled again. *)
Lemma on_event_settled (g : gathering) (ev : event) (o : Exc json) :
  promise g = Some o -> promise (on_event JSON_parse g ev) = Some o.
Proof.
  intros Hg. destruct ev as [chunk | | error]; simpl.
  - unfold on_data. cbv zeta. destruct (PAYLOAD_LIMIT <? _); simpl; trivial.
    unfold settle. simpl. now rewrite Hg.
  - unfold on_end, settle. rewrite Hg.
    destruct (String.eqb _ _); [ exact Hg | ].
    now destruct (JSON_parse _).
  - unfold settle. now rewrite Hg.
Qed.

Lemma fold_settled (events : list event) (g : gathering) (o : Exc json) :
  promise g = Some o ->
  promise (fold_left (on_event JSON_parse) events g) = Some o.
Proof.
  revert g. induction events as [ | ev events IH ]; intros g Hg; simpl.
  - exact Hg.
  - apply IH. now apply on_event_settled.
Qed.

Lemma on_data_pending (chunk : string) (g : gathering) :
  promise g = None ->
  on_data chunk g
  = mkGathering (data g ++ chunk)
      (if oversized (data g ++ chunk) then Some (Throw TOO_LARGE) else None).
Proof.
  intros Hp. unfold on_data, oversized, settle. cbn [data promise].
  rewrite Hp. now destruct (PAYLOAD_LIMIT <? _).
Qed.

(** After data events only: the text gathered, and the promise rejected as
    soon as, and only if, the text got over the limit. *)
Lemma fold_data (chunks : list string) (g : gathering) :
  promise g = None -> oversized (data g) = false ->
  let g' := fold_left (on_event JSON_parse) (map Data chunks) g in
  let text := (data g ++ whole chunks)%string in
  promise g' = (if oversized text then Some (Throw TOO_LARGE) else None)
  /\ (oversized text = false -> data g' = text).
Proof.
  revert g. induction chunks as [ | chunk chunks IH ]; intros g Hp Hsmall.
  - cbn. rewrite append_empty_r, Hsmall. now split.
  - cbn [map fold_left whole fold_right on_event]. fold (whole chunks).
    rewrite (on_data_pending chunk g Hp).
    destruct (oversized (data g ++ chunk)) eqn:Hover.
    + assert (Hbig : oversized (data g ++ chunk ++ whole chunks) = true).
      { unfold oversized in *. rewrite <- append_assoc.
        rewrite (length16_append (data g ++ chunk)).
        apply Z.ltb_lt in Hover. apply Z.ltb_lt.
        pose proof (length16_nonneg (whole chunks)). lia. }
      cbv zeta. rewrite Hbig. split; [ | discriminate ].
      now apply fold_settled.
    + specialize (IH (mkGathering (data g ++ chunk) None) eq_refl Hover).
      cbv zeta in IH. cbn [data] in IH. now rewrite append_assoc in IH.
Qed.

End RequestBodyFacts.

Section RequestBodyOutcome.

Variable JSON_parse : string -> Exc json.

Lemma parseRequestBody_data (chunks : list string) :
  parseRequestBody JSON_parse (map Data chunks)
  = if oversized (whole chunks) then Some (Throw TOO_LARGE) else None.
Proof.
  unfold parseRequestBody.
  now destruct (fold_data JSON_parse chunks (mkGathering "" None) eq_refl eq_refl).
Qed.

Lemma parseRequestBody_end (chunks : list string) :
  parseRequestBody JSON_parse (map Data chunks ++ [End])
  = Some (if oversized (whole chunks) then Throw TOO_LARGE
          else at_end JSON_parse (whole chunks)).
Proof.
  unfold parseRequestBody. rewrite fold_left_app. cbn [fold_left on_event].
  destruct (fold_data JSON_parse chunks (mkGathering "" None) eq_refl eq_refl)
    as (Hp & Hd). cbv zeta in Hp, Hd. cbn [data append] in Hp, Hd.
  set (g := fold_left (on_event JSON_parse) (map Data chunks) (mkGathering "" None))
    in *.
  destruct (oversized (whole chunks)).
  - unfold on_end, settle. rewrite Hp.
    destruct (String.eqb _ _); [ exact Hp | ]. now destruct (JSON_parse _).
  - unfold on_end, settle, at_end. rewrite Hp, (Hd eq_refl).
    destruct (String.eqb _ _); [ reflexivity | ]. now destruct (JSON_parse _).
Qed.

Lemma parseRequestBody_failed (chunks : list string) (error : Error) :
  parseRequestBody JSON_parse (map Data chunks ++ [Failed error])
  = Some (if oversized (whole chunks) then Throw TOO_LARGE else Throw error).
Proof.
  unfold parseRequestBody. rewrite fold_left_app. cbn [fold_left on_event].
  destruct (fold_data JSON_parse chunks (mkGathering "" None) eq_refl eq_refl)
    as (Hp & _). cbv zeta in Hp. cbn [data append] in Hp.
  unfold settle. rewrite Hp. now destruct (oversized (whole chunks)).
Qed.

(** A body of up to 1,000,000 euro signs, though of three times as many
    bytes, is not too large: it gets to [JSON.parse]. *)
Lemma euros_are_parsed (n : nat) :
  (0 < n)%nat -> Z.of_nat n <= PAYLOAD_LIMIT ->
  parseRequestBody JSON_parse [Data (Sample.euros n); End]
  = Some (match JSON_parse (Sample.euros n) with
          | Ok parsed => Ok parsed
          | Throw _ => Throw INVALID_JSON
          end).
Proof.
  intros Hn Hsmall.
  pose proof (parseRequestBody_end [Sample.euros n]) as E.
  cbn [map app whole fold_right] in E.
  rewrite append_empty_r, (euros_within_limit n Hsmall) in E.
  rewrite E. unfold at_end.
  destruct n as [ | n ]; [ lia | reflexivity ].
Qed.

(** X7. The promise of [parseRequestBody], by what the stream has emitted:
    after data only it is pending unless the length of the text gathered,
    in UTF-16 code units, is over 1,000,000, which rejects it at once as
    too large; at the end of a body within the limit it resolves with the
    empty object for an empty text, with what [JSON.parse] returns
    otherwise, and is rejected as invalid JSON when [JSON.parse] throws; a
    stream error on a body within the limit rejects it with that error. *)
Theorem body_promise (chunks : list string) :
  parseRequestBody JSON_parse (map Data chunks)
  = (if oversized (whole chunks) then Some (Throw TOO_LARGE) else None)
  /\ parseRequestBody JSON_parse (map Data chunks ++ [End])
     = Some (if oversized (whole chunks) then Throw TOO_LARGE
             else if String.eqb (whole chunks) "" then Ok (JObject [])
             else match JSON_parse (whole chunks) with
                  | Ok parsed => Ok parsed
                  | Throw _ => Throw INVALID_JSON
                  end)
  /\ (forall error,
        parseRequestBody JSON_parse (map Data chunks ++ [Failed error])
        = Some (if oversized (whole chunks) then Throw TOO_LARGE
                else Throw error)).
Proof.
  split; [ apply parseRequestBody_data | ].
  split; [ apply parseRequestBody_end | ].
  intros error. apply parseRequestBody_failed.
Qed.

(** X8. Once the promise is settled, whatever the stream emits afterwards
    changes nothing: a body that got too large stays rejected even if its
    whole text is valid JSON, and nothing that follows the end counts. *)
Theorem first_settlement_wins (events more : list event) (o : Exc json) :
  parseRequestBody JSON_parse events = Some o ->
  parseRequestBody JSON_parse (events ++ more) = Some o.
Proof.
  unfold parseRequestBody. intros H. rewrite fold_left_app.
  now apply fold_settled.
Qed.

End RequestBodyOutcome.

(** ** The POST branch from the stream *)

Section PostFromStream.

Variable StringToNumber : string -> number.
Variable JSON_parse : string -> Exc json.
Variable ToPrimitive : json -> Exc string.

(** A body with none of the three properties is invalid. *)
Lemma empty_body_rejected :
  parseAndValidateSlot StringToNumber (Body.mk Undefined Undefined Undefined)
  = Ok (Rejected INVALID).
Proof. reflexivity. Qed.

Lemma body_of_fields (body : json) :
  body <> JNull -> body_of ToPrimitive body = Ok (fields ToPrimitive body).
Proof. destruct body; trivial. now intros []. Qed.

(** With the promise resolved, the POST branch is [createBooking] on the
    fields read off the body. *)
Lemma postBookings_resolved (uuid now : string) (events : list event)
    (body : json) (d : Disk) :
  parseRequestBody JSON_parse events = Some (Ok body) ->
  postBookings StringToNumber JSON_parse ToPrimitive uuid now events d
  = match body with
    | JNull => (Some (caught NULL_BODY), d)
    | _ =>
        let (r, d') :=
          createBooking StringToNumber uuid now (fields ToPrimitive body) d in
        (Some r, d')
    end.
Proof.
  intros Hp. unfold postBookings. rewrite Hp.
  destruct body; try reflexivity;
    unfold bind, lift, body_of, createBooking, fields;
    now destruct (createBooking_then _ _ _ _ _) as [[r | e] d'].
Qed.

Lemma postBookings_rejected (uuid now : string) (events : list event)
    (error : Error) (d : Disk) :
  parseRequestBody JSON_parse events = Some (Throw error) ->
  postBookings StringToNumber JSON_parse ToPrimitive uuid now events d
  = (Some (caught error), d).
Proof. intros Hp. unfold postBookings. now rewrite Hp. Qed.

(** X9. The POST branch on a whole request, from the chunks of its body:
    with a length over 1,000,000 UTF-16 code units it answers 413
    "Payload too large"; on an empty body 400 with the generic validation
    error; on a text that [JSON.parse] rejects 400 "Invalid JSON"; on
    [null] 400 with the message of the TypeError; in all four cases the
    disk is not touched.  On any other parsed value it is [createBooking]
    on the date, time and duration read off that value. *)
Theorem post_from_stream (uuid now : string) (chunks : list string) (d : Disk) :
  postBookings StringToNumber JSON_parse ToPrimitive uuid now
    (map Data chunks ++ [End]) d
  = if oversized (whole chunks)
    then (Some (sendJson 413 (ErrorBody "Payload too large")), d)
    else if String.eqb (whole chunks) ""
    then (Some (sendJson 400 (ErrorBody INVALID)), d)
    else match JSON_parse (whole chunks) with
         | Throw _ => (Some (sendJson 400 (ErrorBody "Invalid JSON")), d)
         | Ok JNull => (Some (sendJson 400 (ErrorBody (message NULL_BODY))), d)
         | Ok body =>
             let (r, d') :=
               createBooking StringToNumber uuid now (fields ToPrimitive body) d in
             (Some r, d')
         end.
Proof.
  pose proof (parseRequestBody_end JSON_parse chunks) as Hp.
  destruct (oversized (whole chunks)).
  - now rewrite (postBookings_rejected _ _ _ _ _ Hp).
  - unfold at_end in Hp. destruct (String.eqb (whole chunks) "").
    + rewrite (postBookings_resolved _ _ _ _ _ Hp).
      now rewrite (createBooking_rejected _ _ _ _ _ d empty_body_rejected).
    + destruct (JSON_parse (whole chunks)) as [body | e].
      * rewrite (postBookings_resolved _ _ _ _ _ Hp). now destruct body.
      * now rewrite (postBookings_rejected _ _ _ _ _ Hp).
Qed.

(** A parsed body that is not an object has none of the three
    properties. *)
Lemma fields_non_object (body : json) :
  (forall members, body <> JObject members) ->
  fields ToPrimitive body = Body.mk Undefined Undefined Undefined.
Proof. destruct body; trivial. intros H. now elim (H members). Qed.

(** X10. A request whose body is valid JSON without being an object (a
    number, a string, a boolean or an array) is answered 400 with the
    generic validation error, and the disk is not touched. *)
Theorem non_object_body_is_invalid (uuid now : string) (d : Disk) :
  let answer body :=
    createBooking StringToNumber uuid now (fields ToPrimitive body) d in
  (forall b, answer (JBool b) = (sendJson 400 (ErrorBody INVALID), d))
  /\ (forall n, answer (JNumber n) = (sendJson 400 (ErrorBody INVALID), d))
  /\ (forall s, answer (JString s) = (sendJson 400 (ErrorBody INVALID), d))
  /\ (forall items, answer (JArray items) = (sendJson 400 (ErrorBody INVALID), d)).
Proof.
  intros answer. unfold answer.
  repeat split; intros;
    rewrite fields_non_object by discriminate;
    apply (createBooking_rejected _ _ _ _ _ d empty_body_rejected).
Qed.

(** The last member of each name decides. *)
Lemma fields_members (m1 m2 : list (string * json)) :
  member "date" m1 = member "date" m2 ->
  member "time" m1 = member "time" m2 ->
  member "duration" m1 = member "duration" m2 ->
  fields ToPrimitive (JObject m1) = fields ToPrimitive (JObject m2).
Proof.
  intros Hd Ht Hn. unfold fields, property. now rewrite Hd, Ht, Hn.
Qed.

(** X11. The answer to a POST depends on the body only through the last
    date, time and duration members of the object: whatever else the client
    sends (an id, a creation time, start or end minutes of its own) is
    ignored. *)
Theorem other_members_ignored (uuid now : string) (text1 text2 : string)
    (m1 m2 : list (string * json)) (d : Disk) :
  text1 <> EmptyString -> text2 <> EmptyString ->
  oversized text1 = false -> oversized text2 = false ->
  JSON_parse text1 = Ok (JObject m1) -> JSON_parse text2 = Ok (JObject m2) ->
  member "date" m1 = member "date" m2 ->
  member "time" m1 = member "time" m2 ->
  member "duration" m1 = member "duration" m2 ->
  postBookings StringToNumber JSON_parse ToPrimitive uuid now [Data text1; End] d
  = postBookings StringToNumber JSON_parse ToPrimitive uuid now [Data text2; End] d.
Proof.
  intros Hne1 Hne2 Ho1 Ho2 Hp1 Hp2 Hd Ht Hn.
  assert (Hpost : forall text m,
    text <> EmptyString ->
    oversized text = false -> JSON_parse text = Ok (JObject m) ->
    postBookings StringToNumber JSON_parse ToPrimitive uuid now [Data text; End] d
    = let (r, d') :=
        createBooking StringToNumber uuid now (fields ToPrimitive (JObject m)) d in
      (Some r, d')).
  { intros text m Hne Ho Hp.
    pose proof (parseRequestBody_end JSON_parse [text]) as E.
    cbn [map app whole fold_right] in E. rewrite append_empty_r, Ho in E.
    unfold at_end in E. rewrite Hp in E.
    rewrite (proj2 (String.eqb_neq text "") Hne) in E.
    now rewrite (postBookings_resolved _ _ _ _ _ E). }
  rewrite (Hpost _ _ Hne1 Ho1 Hp1), (Hpost _ _ Hne2 Ho2 Hp2).
  now rewrite (fields_members _ _ Hd Ht Hn).
Qed.

End PostFromStream.

(** ** Routing *)

Lemma split_not_nil (sep : ascii) (s : string) : split sep s <> [].
Proof.
  destruct s as [ | c s ]; simpl; [ discriminate | ].
  destruct (Ascii.eqb c sep); [ discriminate | ].
  destruct (split sep s); discriminate.
Qed.

Lemma hd_split_cons (sep c : ascii) (s : string) :
  Ascii.eqb c sep = false ->
  hd EmptyString (split sep (String c s)) = String c (hd EmptyString (split sep s)).
Proof.
  intros Hc. cbn [split]. rewrite Hc.
  pose proof (split_not_nil sep s). now destruct (split sep s).
Qed.

(** The part of a string before the separator, when it has one and when it
    has none. *)
Lemma hd_split_before (sep : ascii) (before after : string) :
  occurs sep before = false ->
  hd EmptyString (split sep (before ++ String sep after)) = before.
Proof.
  induction before as [ | c before IH ]; cbn [occurs append]; intros H.
  - cbn [split]. now rewrite Ascii.eqb_refl.
  - apply orb_false_iff in H as (Hc & H).
    rewrite hd_split_cons by assumption. now rewrite IH.
Qed.

Lemma hd_split_whole (sep : ascii) (s : string) :
  occurs sep s = false -> hd EmptyString (split sep s) = s.
Proof.
  induction s as [ | c s IH ]; cbn [occurs]; intros H; [ reflexivity | ].
  apply orb_false_iff in H as (Hc & H).
  rewrite hd_split_cons by assumption. now rewrite IH.
Qed.

Lemma startsWith_append (prefix s : string) :
  startsWith (prefix ++ s) prefix = true.
Proof.
  induction prefix as [ | c prefix IH ]; simpl; [ now destruct s | ].
  now rewrite Ascii.eqb_refl, IH.
Qed.

Lemma drop_append (prefix s : string) : drop prefix (prefix ++ s) = s.
Proof. induction prefix as [ | c prefix IH ]; simpl; [ now destruct s | exact IH ]. Qed.

Lemma remove_first_eq (pattern s : string) :
  remove_first pattern s
  = if startsWith s pattern then drop pattern s
    else match s with
         | EmptyString => EmptyString
         | String c s' => String c (remove_first pattern s')
         end.
Proof. now destruct s. Qed.

(** Cutting out a prefix leaves what follows it. *)
Lemma remove_first_prefix (prefix s : string) :
  remove_first prefix (prefix ++ s) = s.
Proof. now rewrite remove_first_eq, startsWith_append, drop_append. Qed.

Lemma occurs_append (c : ascii) (a b : string) :
  occurs c (a ++ b) = occurs c a || occurs c b.
Proof.
  induction a as [ | x a IH ]; simpl; [ reflexivity | ].
  now rewrite IH, orb_assoc.
Qed.

Section Routing.

Variable StringToNumber : string -> number.
Variable localeCompare : string -> string -> Z.
Variable JSON_parse : string -> Exc json.
Variable ToPrimitive : json -> Exc string.
Variable decodeURIComponent : string -> Exc string.

(** X12. A query string does not change what a request does: the route is
    chosen by what stands before the first question mark. *)
Theorem query_string_ignored (uuid now verb path query : string)
    (evs : list event) :
  occurs "?" path = false ->
  handleApi_request StringToNumber localeCompare JSON_parse ToPrimitive
    decodeURIComponent uuid now (mkRequest verb (path ++ String "?" query) evs)
  = handleApi_request StringToNumber localeCompare JSON_parse ToPrimitive
      decodeURIComponent uuid now (mkRequest verb path evs).
Proof.
  intros H. unfold handleApi_request. cbn [url method events].
  now rewrite (hd_split_before _ _ query H), (hd_split_whole _ _ H).
Qed.

(** X13. DELETE on /api/bookings/ followed by an id: the id is decoded and
    the booking with the decoded id is deleted; when the id is not a
    well-formed escape sequence the URIError leaves the handler before the
    data file is read or created. *)
Theorem delete_by_url (uuid now id : string) (evs : list event) (d : Disk) :
  occurs "?" id = false ->
  handleApi_request StringToNumber localeCompare JSON_parse ToPrimitive
    decodeURIComponent uuid now
    (mkRequest "DELETE" ("/api/bookings/" ++ id) evs) d
  = match decodeURIComponent id with
    | Ok bookingId => sent (deleteBooking bookingId) d
    | Throw e => (Throw e, d)
    end.
Proof.
  intros H. unfold handleApi_request. cbn [url method events].
  assert (Hpath : occurs "?" ("/api/bookings/" ++ id) = false).
  { rewrite occurs_append, H. reflexivity. }
  rewrite (hd_split_whole _ _ Hpath).
  rewrite startsWith_append, remove_first_prefix.
  cbn [String.eqb Ascii.eqb Bool.eqb andb]. unfold bind, lift, sent.
  now destruct (decodeURIComponent id).
Qed.

(** X14. Everything else is answered 404 "Not found." without touching the
    disk: a method other than GET, POST and DELETE; a path other than
    /api/bookings that is not under /api/bookings/; GET and POST under
    /api/bookings/ (no single booking is read or changed); DELETE on
    /api/bookings itself (the collection is never deleted as a whole). *)
Theorem no_other_route (uuid now : string) (req : Request) (d : Disk) :
  let pathname := hd EmptyString (split "?" (url req)) in
  (method req <> "GET" /\ method req <> "POST" /\ method req <> "DELETE")
  \/ (pathname <> "/api/bookings" /\ startsWith pathname "/api/bookings/" = false)
  \/ (method req <> "DELETE" /\ pathname <> "/api/bookings")
  \/ (method req = "DELETE" /\ startsWith pathname "/api/bookings/" = false) ->
  handleApi_request StringToNumber localeCompare JSON_parse ToPrimitive
    decodeURIComponent uuid now req d
  = (Ok (Some (sendJson 404 (ErrorBody "Not found."))), d).
Proof.
  intros pathname H. unfold handleApi_request. fold pathname.
  destruct (String.eqb_spec (method req) "GET") as [Hg | Hg];
    destruct (String.eqb_spec (method req) "POST") as [Hp | Hp];
    destruct (String.eqb_spec (method req) "DELETE") as [Hd | Hd];
    destruct (String.eqb_spec pathname "/api/bookings") as [Hb | Hb];
    destruct (startsWith pathname "/api/bookings/") eqn:Hs;
    try reflexivity; try congruence;
    try (rewrite Hb in Hs; discriminate Hs);
    exfalso; destruct H as [(? & ? & ?) | [(? & ?) | [(? & ?) | (? & ?)]]];
    congruence.
Qed.

End Routing.

(** ** How the operations compose *)

Lemma ensured_collection (bookings : list Booking.t) (w : list (list Booking.t)) :
  ensured (mkDisk (Some (Collection bookings)) w)
  = mkDisk (Some (Collection bookings)) w.
Proof. reflexivity. Qed.

Lemma ensured_ensured (d : Disk) : ensured (ensured d) = ensured d.
Proof. unfold ensured. destruct (file d) eqn:E; simpl; now rewrite ?E. Qed.

Lemma filter_id_again (bookingId : string) (bookings : list Booking.t) :
  let keep := fun item => negb (String.eqb (Booking.id item) bookingId) in
  filter keep (filter keep bookings) = filter keep bookings.
Proof.
  intros keep. apply forallb_filter_id, forallb_forall.
  now intros b (_ & Hb)%filter_In.
Qed.

(** X15. The load never calls [writeBookings], keeps the collection, and
    loading again gives the same result and leaves the disk as the first
    load left it: the only change a load makes is to create a missing data
    file. *)
Theorem load_is_stable (d : Disk) :
  let first := readBookings d in
  written (snd first) = written d
  /\ collection (snd first) = collection d
  /\ readBookings (snd first) = first.
Proof.
  destruct d as [[[e | | bookings] | ] w]; now repeat split.
Qed.

(** X16. Deleting the same id a second time is answered 404 "Booking not
    found." and changes nothing. *)
Theorem delete_twice (bookingId : string) (d : Disk) :
  readable d ->
  let d1 := snd (deleteBooking bookingId d) in
  deleteBooking bookingId d1
  = (Ok (sendJson 404 (ErrorBody "Booking not found.")), d1).
Proof.
  intros Hr d1.
  assert (Hd1 : d1 = ensured d
                \/ exists w, d1 = mkDisk (Some (Collection
                     (filter (fun item => negb (String.eqb (Booking.id item) bookingId))
                        (collection d)))) w).
  { subst d1. rewrite (deleteBooking_readable bookingId d Hr). cbv zeta.
    destruct (Nat.eqb _ _); cbn [snd]; [ now left | right; eauto ]. }
  assert (Hr1 : readable d1).
  { destruct Hd1 as [-> | (w & ->)];
      [ now apply readable_ensured | apply readable_collection ]. }
  assert (Hc1 : collection d1
                = filter (fun item => negb (String.eqb (Booking.id item) bookingId))
                    (collection d)).
  { subst d1. rewrite (deleteBooking_readable bookingId d Hr). cbv zeta.
    destruct (Nat.eqb_spec
                (List.length (filter (fun item => negb (String.eqb (Booking.id item) bookingId))
                                (collection d)))
                (List.length (collection d))) as [E | _]; cbn [snd]; [ | reflexivity ].
    rewrite collection_ensured. symmetry.
    apply forallb_filter_id, forallb_forall. now apply filter_length_iff. }
  assert (He1 : ensured d1 = d1).
  { destruct Hd1 as [-> | (w & ->)]; [ apply ensured_ensured | reflexivity ]. }
  rewrite (deleteBooking_readable bookingId d1 Hr1). cbv zeta.
  rewrite Hc1, filter_id_again, Nat.eqb_refl. now rewrite He1.
Qed.

Section Composition.

Variable StringToNumber : string -> number.

Hypothesis StringToNumber_digits :
  forall a b : ascii,
    is_digit a = true -> is_digit b = true ->
    StringToNumber (String a (String b EmptyString))
    = Int (10 * digit_val a + digit_val b).

Lemma find_app_none {A : Type} (f : A -> bool) (l : list A) (x : A) :
  find f l = None -> f x = true -> find f (l ++ [x]) = Some x.
Proof.
  induction l as [ | a l IH ]; simpl; intros Hn Hx.
  - now rewrite Hx.
  - destruct (f a); [ discriminate | auto ].
Qed.

(** X17. Sending again a request that has just been created is refused:
    the answer is 409 with the booking the first request created as the
    conflict, and nothing is written. *)
Theorem create_twice (uuid now uuid' now' : string) (body : Body.t)
    (booking : Booking.t) (d : Disk) :
  readable d ->
  fst (createBooking StringToNumber uuid now body d)
  = sendJson 201 (BookingBody booking) ->
  let d1 := snd (createBooking StringToNumber uuid now body d) in
  createBooking StringToNumber uuid' now' body d1
  = (sendJson 409 (ConflictBody OVERLAPS booking), d1).
Proof.
  intros Hr Hres d1. subst d1.
  destruct (parseAndValidateSlot StringToNumber body) as [[error | slot] | e] eqn:Hs.
  - now rewrite (createBooking_rejected _ _ _ _ _ d Hs) in Hres.
  - rewrite (createBooking_accepted _ _ _ _ _ _ Hr Hs) in Hres |- *.
    destruct (find (conflicts slot) (collection d)) eqn:F; [ discriminate Hres | ].
    cbn in Hres. injection Hres as <-. cbv zeta. cbn [snd].
    rewrite (createBooking_accepted _ _ _ _ _ _ (readable_collection _ _) Hs).
    unfold collection at 1. cbn [file].
    rewrite (find_app_none _ _ _ F).
    + reflexivity.
    + apply (same_slot_conflicts _ StringToNumber_digits body); trivial.
      now repeat split.
  - unfold createBooking, createBooking_then, bind, lift in Hres.
    rewrite Hs in Hres. cbn [fst] in Hres.
    destruct (String.eqb _ _); discriminate Hres.
Qed.

End Composition.

(** X18. Deleting frees the slot: when every booking that conflicts with a
    valid slot has the id that is deleted, the slot can be created right
    after the deletion. *)
Theorem delete_frees_slot (StringToNumber : string -> number)
    (uuid now bookingId : string) (body : Body.t) (slot : Slot.t) (d : Disk) :
  readable d ->
  parseAndValidateSlot StringToNumber body = Ok (Accepted slot) ->
  (forall e, In e (collection d) -> conflicts slot e = true ->
             Booking.id e = bookingId) ->
  fst (createBooking StringToNumber uuid now body
         (snd (deleteBooking bookingId d)))
  = sendJson 201 (BookingBody (booking_of uuid now slot)).
Proof.
  intros Hr Hs Honly.
  set (keep := fun item => negb (String.eqb (Booking.id item) bookingId)).
  assert (Hd1 : readable (snd (deleteBooking bookingId d))
                /\ collection (snd (deleteBooking bookingId d))
                   = filter keep (collection d)).
  { rewrite (deleteBooking_readable bookingId d Hr). cbv zeta. fold keep.
    destruct (Nat.eqb_spec (List.length (filter keep (collection d)))
                (List.length (collection d))) as [E | _]; cbn [snd].
    - split; [ now apply readable_ensured | ].
      rewrite collection_ensured. symmetry.
      apply forallb_filter_id, forallb_forall. now apply filter_length_iff.
    - split; [ apply readable_collection | reflexivity ]. }
  destruct Hd1 as (Hr1 & Hc1).
  rewrite (createBooking_accepted _ _ _ _ _ _ Hr1 Hs), Hc1.
  destruct (find (conflicts slot) (filter keep (collection d))) as [c | ] eqn:F;
    [ | reflexivity ].
  apply find_some in F as ((Hin & Hkeep)%filter_In & Hc).
  unfold keep in Hkeep. rewrite (Honly c Hin Hc), String.eqb_refl in Hkeep.
  discriminate Hkeep.
Qed.

Lemma requests_readable_shape (StringToNumber : string -> number)
    (localeCompare : string -> string -> Z) (uuid now : string) (r : route)
    (d : Disk) :
  readable d ->
  let d' := snd (handleApi StringToNumber localeCompare uuid now r d) in
  (collection d' = collection d
   \/ (exists slot, collection d' = collection d ++ [booking_of uuid now slot])
   \/ (exists bookingId,
         collection d'
         = filter (fun item => negb (String.eqb (Booking.id item) bookingId))
             (collection d)))
  /\ (written d' = written d \/ written d' = written d ++ [collection d'])
  /\ (forall e, file d = Some (Unparsable e) -> d' = d).
Proof.
  intros Hr d'. subst d'.
  assert (Same : forall d', collection d' = collection d -> written d' = written d ->
    (collection d' = collection d
     \/ (exists slot, collection d' = collection d ++ [booking_of uuid now slot])
     \/ (exists bookingId,
           collection d'
           = filter (fun item => negb (String.eqb (Booking.id item) bookingId))
               (collection d)))
    /\ (written d' = written d \/ written d' = written d ++ [collection d'])
    /\ (forall e, file d = Some (Unparsable e) -> d' = d)).
  { intros d' Hc Hw. split; [ now left | split; [ now left | ] ].
    intros e He. now elim (Hr e). }
  destruct r as [ | body | bookingId | ]; cbn [handleApi].
  - rewrite (listBookings_readable localeCompare d Hr). cbn [snd].
    apply Same; [ apply collection_ensured | apply written_ensured ].
  - replace (snd (let (res, d') := createBooking StringToNumber uuid now body d in
                  (Ok res, d')))
      with (snd (createBooking StringToNumber uuid now body d))
      by now destruct (createBooking _ _ _ _ _).
    destruct (parseAndValidateSlot StringToNumber body) as [[error | slot] | e] eqn:Hs.
    + rewrite (createBooking_rejected _ _ _ _ _ d Hs). now apply Same.
    + rewrite (createBooking_accepted _ _ _ _ _ _ Hr Hs).
      destruct (find _ _); cbv zeta; cbn [snd].
      * apply Same; [ apply collection_ensured | apply written_ensured ].
      * split; [ right; left; now exists slot | ].
        split; [ now right | ]. intros e He. now elim (Hr e).
    + rewrite (createBooking_throws _ _ _ _ _ d Hs). now apply Same.
  - rewrite (deleteBooking_readable bookingId d Hr). cbv zeta.
    destruct (Nat.eqb _ _); cbn [snd].
    + apply Same; [ apply collection_ensured | apply written_ensured ].
    + split; [ right; right; now exists bookingId | ].
      split; [ now right | ]. intros e He. now elim (Hr e).
  - now apply Same.
Qed.

(** X19. No request alters or reorders what is stored: after it the
    collection is the one before, or that with one booking appended (built
    from a slot, with the id and time of this request), or that without the
    bookings of one id; the request calls [writeBookings] at most once, and
    then with the collection it leaves; and a data file that does not parse
    is left exactly as it is. *)
Theorem requests_append_or_remove (StringToNumber : string -> number)
    (localeCompare : string -> string -> Z) (uuid now : string) (r : route)
    (d : Disk) :
  let d' := snd (handleApi StringToNumber localeCompare uuid now r d) in
  (collection d' = collection d
   \/ (exists slot, collection d' = collection d ++ [booking_of uuid now slot])
   \/ (exists bookingId,
         collection d'
         = filter (fun item => negb (String.eqb (Booking.id item) bookingId))
             (collection d)))
  /\ (written d' = written d \/ written d' = written d ++ [collection d'])
  /\ (forall e, file d = Some (Unparsable e) -> d' = d).
Proof.
  intros d'. subst d'.
  assert (Hcase : (exists e, file d = Some (Unparsable e)) \/ readable d).
  { unfold readable. destruct (file d) as [[e | | bookings] | ];
      [ left; now exists e | right; discriminate .. ]. }
  destruct Hcase as [(e & Hf) | Hr].
  - (* the file does not parse: every branch stops at the load *)
    assert (R := readBookings_unparsable d e Hf).
    assert (Hd : snd (handleApi StringToNumber localeCompare uuid now r d) = d).
    { destruct r as [ | body | bookingId | ]; simpl.
      - unfold listBookings, bind. now rewrite R.
      - unfold createBooking, createBooking_then, bind, lift.
        destruct (parseAndValidateSlot StringToNumber body) as [[error | slot] | e'];
          cbn; trivial. now rewrite R.
      - unfold deleteBooking, bind. now rewrite R.
      - reflexivity. }
    rewrite Hd. split; [ now left | split; [ now left | trivial ] ].
  - now apply requests_readable_shape.
Qed.

(** ** Times and durations outside the day *)

(** X20. With a valid date and a positive integer duration, a time whose
    hour field is 24 or more, and any time with a duration over 1440, is
    rejected with the midnight error, not with the generic one. *)
Theorem outside_the_day (StringToNumber : string -> number)
    (date : string) (h1 h2 m1 m2 : ascii) (d : Z) :
  (forall a b : ascii,
      is_digit a = true -> is_digit b = true ->
      StringToNumber (String a (String b EmptyString))
      = Int (10 * digit_val a + digit_val b)) ->
  regex_test date_pattern date = true ->
  is_digit h1 = true -> is_digit h2 = true ->
  is_digit m1 = true -> is_digit m2 = true ->
  0 < d ->
  24 <= 10 * digit_val h1 + digit_val h2 \/ 1440 < d ->
  parseAndValidateSlot StringToNumber
    (Body.mk (Str date)
       (Str (String h1 (String h2 (String ":" (String m1 (String m2 EmptyString))))))
       (Num (Int d)))
  = Ok (Rejected MIDNIGHT).
Proof.
  intros HS Hd H1 H2 H3 H4 Hpos Hout.
  rewrite (parseAndValidateSlot_eq StringToNumber _ (Int d)) by reflexivity.
  cbv zeta. cbn [string_or_empty Body.date Body.time]. rewrite Hd.
  assert (Ht : regex_test time_pattern
                 (String h1 (String h2 (String ":" (String m1 (String m2 EmptyString)))))
               = true).
  { simpl. now rewrite H1, H2, H3, H4. }
  rewrite Ht, (toMinutes_digits _ HS) by assumption.
  cbn [isInteger add]. rewrite !gt_Int.
  apply digit_val_range in H1, H2, H3, H4.
  replace (0 <? d) with true by (symmetry; lia).
  match goal with
  | |- context [1440 <? ?x] => replace (1440 <? x) with true by (symmetry; lia)
  end.
  reflexivity.
Qed.

(** ** The further properties on the sample data *)

Lemma first_settlement_wins_at_nine :
  parseRequestBody Json.parse [Data Wire.nine; End]
  = Some (Ok (JObject [("date", JString "2024-06-01"); ("time", JString "09:00");
                       ("duration", JNumber (Int 60))]))
  /\ parseRequestBody Json.parse
       ([Data Wire.nine; End] ++ [Data "]"; End; Failed Sample.syntax_error])
     = Some (Ok (JObject [("date", JString "2024-06-01"); ("time", JString "09:00");
                          ("duration", JNumber (Int 60))])).
Proof.
  split; [ reflexivity | ].
  exact (first_settlement_wins Json.parse [Data Wire.nine; End]
           [Data "]"; End; Failed Sample.syntax_error] _ eq_refl).
Defined.

Lemma other_members_ignored_at_nine :
  Json.parse Wire.nine
  = Ok (JObject [("date", JString "2024-06-01"); ("time", JString "09:00");
                 ("duration", JNumber (Int 60))])
  /\ Json.parse Wire.nine_with_more
     = Ok (JObject [("id", JString "mine"); ("date", JString "2024-06-01");
                    ("startMinutes", JNumber (Int 0)); ("time", JString "09:00");
                    ("duration", JNumber (Int 60)); ("createdAt", JString "never")])
  /\ postBookings Runtime.readNumber Json.parse Primitive.toPrimitive "id-9"
       "2024-06-01T00:00:00.000Z" [Data Wire.nine; End] (mkDisk None [])
     = postBookings Runtime.readNumber Json.parse Primitive.toPrimitive "id-9"
         "2024-06-01T00:00:00.000Z" [Data Wire.nine_with_more; End] (mkDisk None []).
Proof.
  split; [ reflexivity | ]. split; [ reflexivity | ].
  apply (other_members_ignored Runtime.readNumber Json.parse Primitive.toPrimitive
           "id-9" "2024-06-01T00:00:00.000Z" Wire.nine Wire.nine_with_more
           [("date", JString "2024-06-01"); ("time", JString "09:00");
            ("duration", JNumber (Int 60))]
           [("id", JString "mine"); ("date", JString "2024-06-01");
            ("startMinutes", JNumber (Int 0)); ("time", JString "09:00");
            ("duration", JNumber (Int 60)); ("createdAt", JString "never")]
           (mkDisk None []));
    try reflexivity; discriminate.
Defined.

Lemma query_string_ignored_at_list :
  occurs "?" "/api/bookings" = false
  /\ handleApi_request Runtime.readNumber Runtime.codeUnitCompare Json.parse
       Primitive.toPrimitive Uri.decodeURIComponent "id-9"
       "2024-06-01T00:00:00.000Z" (mkRequest "GET" "/api/bookings?day=1" [End])
     = handleApi_request Runtime.readNumber Runtime.codeUnitCompare Json.parse
         Primitive.toPrimitive Uri.decodeURIComponent "id-9"
         "2024-06-01T00:00:00.000Z" (mkRequest "GET" "/api/bookings" [End]).
Proof.
  split; [ reflexivity | ].
  exact (query_string_ignored Runtime.readNumber Runtime.codeUnitCompare
           Json.parse Primitive.toPrimitive Uri.decodeURIComponent "id-9"
           "2024-06-01T00:00:00.000Z" "GET" "/api/bookings" "day=1" [End] eq_refl).
Defined.

Lemma delete_by_url_at_id2 :
  occurs "?" "id%2D2" = false
  /\ Uri.decodeURIComponent "id%2D2" = Ok "id-2"
  /\ handleApi_request Runtime.readNumber Runtime.codeUnitCompare Json.parse
       Primitive.toPrimitive Uri.decodeURIComponent "id-9"
       "2024-06-01T00:00:00.000Z"
       (mkRequest "DELETE" "/api/bookings/id%2D2" [End]) Sample.disk
     = sent (deleteBooking "id-2") Sample.disk.
Proof.
  split; [ reflexivity | ]. split; [ reflexivity | ].
  exact (delete_by_url Runtime.readNumber Runtime.codeUnitCompare Json.parse
           Primitive.toPrimitive Uri.decodeURIComponent "id-9"
           "2024-06-01T00:00:00.000Z" "id%2D2" [End] Sample.disk eq_refl).
Defined.

Lemma no_other_route_at_get_one :
  handleApi_request Runtime.readNumber Runtime.codeUnitCompare Json.parse
    Primitive.toPrimitive Uri.decodeURIComponent "id-9"
    "2024-06-01T00:00:00.000Z" (mkRequest "GET" "/api/bookings/id-1" [End])
    Sample.disk
  = (Ok (Some (sendJson 404 (ErrorBody "Not found."))), Sample.disk).
Proof.
  apply (no_other_route Runtime.readNumber Runtime.codeUnitCompare Json.parse
           Primitive.toPrimitive Uri.decodeURIComponent "id-9"
           "2024-06-01T00:00:00.000Z"
           (mkRequest "GET" "/api/bookings/id-1" [End]) Sample.disk).
  right. right. left. split; discriminate.
Defined.

Lemma delete_twice_at_id2 :
  readable Sample.disk
  /\ deleteBooking "id-2" (snd (deleteBooking "id-2" Sample.disk))
     = (Ok (sendJson 404 (ErrorBody "Booking not found.")),
        snd (deleteBooking "id-2" Sample.disk)).
Proof.
  split; [ exact readable_sample | ].
  exact (delete_twice "id-2" Sample.disk readable_sample).
Defined.

Lemma create_twice_at_eleven :
  readable Sample.disk
  /\ createBooking Runtime.readNumber "id-10" "2024-06-01T00:00:01.000Z"
       (Sample.request "2024-06-01" "11:00" 60)
       (snd (createBooking Runtime.readNumber "id-9" "2024-06-01T00:00:00.000Z"
               (Sample.request "2024-06-01" "11:00" 60) Sample.disk))
     = (sendJson 409
          (ConflictBody OVERLAPS
             (Booking.mk "id-9" "2024-06-01" "11:00" (Int 60) (Int 660) (Int 720)
                "2024-06-01T00:00:00.000Z")),
        snd (createBooking Runtime.readNumber "id-9" "2024-06-01T00:00:00.000Z"
               (Sample.request "2024-06-01" "11:00" 60) Sample.disk)).
Proof.
  split; [ exact readable_sample | ].
  exact (create_twice Runtime.readNumber readNumber_digits "id-9"
           "2024-06-01T00:00:00.000Z" "id-10" "2024-06-01T00:00:01.000Z"
           (Sample.request "2024-06-01" "11:00" 60) _ Sample.disk
           readable_sample eq_refl).
Defined.

Lemma delete_frees_slot_at_nine :
  let slot := Slot.mk "2024-06-01" "09:15" (Int 30) (Int 555) (Int 585) in
  parseAndValidateSlot Runtime.readNumber (Sample.request "2024-06-01" "09:15" 30)
  = Ok (Accepted slot)
  /\ fst (createBooking Runtime.readNumber "id-9" "2024-06-01T00:00:00.000Z"
            (Sample.request "2024-06-01" "09:15" 30) Sample.disk)
     = sendJson 409 (ConflictBody OVERLAPS Sample.nine)
  /\ fst (createBooking Runtime.readNumber "id-9" "2024-06-01T00:00:00.000Z"
            (Sample.request "2024-06-01" "09:15" 30)
            (snd (deleteBooking "id-1" Sample.disk)))
     = sendJson 201 (BookingBody (booking_of "id-9" "2024-06-01T00:00:00.000Z" slot)).
Proof.
  intros slot. split; [ reflexivity | ]. split; [ reflexivity | ].
  apply (delete_frees_slot Runtime.readNumber "id-9" "2024-06-01T00:00:00.000Z"
           "id-1" (Sample.request "2024-06-01" "09:15" 30) slot Sample.disk
           readable_sample eq_refl).
  intros e [<- | [<- | [<- | []]]]; [ reflexivity | discriminate | discriminate ].
Defined.

Lemma outside_the_day_at_2400 :
  parseAndValidateSlot Runtime.readNumber (Sample.request "2024-06-01" "24:00" 1)
  = Ok (Rejected MIDNIGHT).
Proof.
  apply (outside_the_day Runtime.readNumber "2024-06-01" "2" "4" "0" "0" 1
           readNumber_digits); try reflexivity.
  left. vm_compute. discriminate.
Defined.
